(** * qq-group-statistics: the transcript parser and its tallies

    A shallow embedding of [statistics.py]: the line loop of
    [get_statistics], the header-field extraction it performs, the tallies it
    keeps in four dictionaries, and the filter and preprocessor functions the
    script installs.

    Conventions.
    - A Python [str] is a sequence of Unicode code points: [pystr] is
      [list N].  String literals of the source are written [py "..."].
    - A Python [int] is a [Z].
    - A Python [dict] with [str] keys is a [gmap pystr _].  The insertion
      order a [dict] also remembers is not represented.
    - An optional callback argument ([None] by default) is an [option].
    - The transcript is the list of lines the file iterator yields.
    - [jieba.lcut] and the Unicode table of decimal digits used by [\d] are
      not part of the script: they are parameters of the development. *)

From Stdlib Require Import ZArith NArith Ascii String List Bool Lia.
From Stdlib Require Import Sorting.Sorted.
From stdpp Require Import base option list gmap fin_maps fin_sets.

Local Open Scope Z_scope.

(** ** Strings *)

Definition char : Type := N.
Definition pystr : Type := list char.

Definition chr (a : ascii) : char := N_of_ascii a.

(** An ASCII literal of the source as a [pystr]. *)
Definition py (s : string) : pystr := map chr (list_ascii_of_string s).

Definition LF : char := 10%N.
Definition SPACE : char := chr " ".
Definition AT : char := chr "@".
Definition DASH : char := chr "-".
Definition LPAREN : char := chr "(".
Definition LANGLE : char := chr "<".

Definition char_eqb (a b : char) : bool := N.eqb a b.

(** [len(s)]. *)
Definition len (s : pystr) : Z := Z.of_nat (length s).

(** [str.isspace] on one code point (CPython's [_PyUnicode_IsWhitespace]). *)
Definition isspace (c : char) : bool :=
  ((9 <=? c) && (c <=? 13) || (28 <=? c) && (c <=? 32)
   || (c =? 133) || (c =? 160) || (c =? 5760)
   || (8192 <=? c) && (c <=? 8202)
   || (c =? 8232) || (c =? 8233) || (c =? 8239) || (c =? 8287)
   || (c =? 12288))%N.

Fixpoint lstrip (s : pystr) : pystr :=
  match s with
  | [] => []
  | c :: s' => if isspace c then lstrip s' else s
  end.

Definition rstrip (s : pystr) : pystr := rev (lstrip (rev s)).

(** [s.strip()]. *)
Definition strip (s : pystr) : pystr := rstrip (lstrip s).

(** [s.split(sep)] for a one-character separator: every occurrence of the
    separator cuts, empty fields are kept, and the result is never empty. *)
Fixpoint split (sep : char) (s : pystr) : list pystr :=
  match s with
  | [] => [[]]
  | c :: s' =>
      if char_eqb c sep then [] :: split sep s'
      else match split sep s' with
           | w :: ws => (c :: w) :: ws
           | [] => [[c]]
           end
  end.

(** [sep.join(l)]. *)
Fixpoint join (sep : pystr) (l : list pystr) : pystr :=
  match l with
  | [] => []
  | [w] => w
  | w :: ws => w ++ sep ++ join sep ws
  end.

(** [s.rfind(c)] for a one-character needle: the highest index holding [c],
    or [-1]. *)
Fixpoint rfind_from (c : char) (s : pystr) (i last : Z) : Z :=
  match s with
  | [] => last
  | x :: s' => rfind_from c s' (i + 1) (if char_eqb x c then i else last)
  end.

Definition rfind (c : char) (s : pystr) : Z := rfind_from c s 0 (-1).

(** Slicing, [s[start:stop]]: a negative bound counts from the end, and
    every bound is clamped to [0 .. len(s)]; an absent bound is the
    corresponding end of the string. *)
Definition slice_bound (n i : Z) : Z :=
  if i <? 0 then Z.max 0 (i + n) else Z.min i n.

Definition slice (start stop : option Z) (s : pystr) : pystr :=
  let n := len s in
  let a := match start with Some i => slice_bound n i | None => 0 end in
  let b := match stop with Some i => slice_bound n i | None => n end in
  take (Z.to_nat (b - a)) (drop (Z.to_nat a) s).

(** [needle in s] for substrings. *)
Fixpoint starts_with (p s : pystr) : bool :=
  match p, s with
  | [], _ => true
  | _ :: _, [] => false
  | a :: p', b :: s' => char_eqb a b && starts_with p' s'
  end.

Fixpoint contains (needle s : pystr) : bool :=
  starts_with needle s ||
  match s with
  | [] => false
  | _ :: s' => contains needle s'
  end.

(** ** Dictionaries *)

(** [if k in d: d[k] += 1 else: d[k] = 1]. *)
Definition incr (d : gmap pystr Z) (k : pystr) : gmap pystr Z :=
  match d !! k with
  | Some c => <[k := c + 1]> d
  | None => <[k := 1]> d
  end.

(** [sum(d.values())]. *)
Definition sum_values (d : gmap pystr Z) : Z :=
  map_fold (fun _ v acc => acc + v) 0 d.

(** The count a day-count or speak-count dictionary stands for at a key:
    the stored value, and zero for an absent key. *)
Definition count_of (d : gmap pystr Z) (k : pystr) : Z := default 0 (d !! k).

(** ** The loop of [get_statistics] *)

(** What [get_statistics] returns:
    [words, total_counts, annoy_counts, speak_counts, card_names]. *)
Definition statistics : Type :=
  (list pystr * gmap pystr Z * gmap pystr Z * gmap pystr Z * gmap pystr pystr)%type.

(** The variables the loop reads and writes. *)
Record loop_state : Type := LoopState {
  prev_is_info_line : bool;
  prev_info_line : pystr;
  prev_date : pystr;
  words : list pystr;
  total_counts : gmap pystr Z;
  annoy_counts : gmap pystr Z;
  speak_counts : gmap pystr Z;
  card_names : gmap pystr pystr
}.

(** The values of the variables when the loop is entered. *)
Definition initial_state : loop_state :=
  LoopState false [] [] [] ∅ ∅ ∅ ∅.

Definition result_of (st : loop_state) : statistics :=
  (words st, total_counts st, annoy_counts st, speak_counts st, card_names st).

(** [f is None or f(...)]: an absent predicate accepts. *)
Definition passes4 (f : option (pystr -> pystr -> pystr -> pystr -> bool))
    (a b c d : pystr) : bool :=
  match f with None => true | Some g => g a b c d end.

Definition passes2 (f : option (pystr -> pystr -> bool)) (a b : pystr) : bool :=
  match f with None => true | Some g => g a b end.

Definition passes1 (f : option (pystr -> bool)) (a : pystr) : bool :=
  match f with None => true | Some g => g a end.

(** [if f is not None: i = f(i)]: an absent preprocessor leaves the line as
    it is. *)
Definition preprocess (f : option (pystr -> pystr)) (i : pystr) : pystr :=
  match f with None => i | Some g => g i end.

(** [" ".join(prev_info_line.split(" ")[2:])]. *)
Definition name_qq_of (info_line : pystr) : pystr :=
  join [SPACE] (drop 2 (split SPACE info_line)).

(** The index the name field is cut at: [rfind("(")], and [rfind("<")] when
    that is [-1]. *)
Definition left_parenthesis_index (name_qq : pystr) : Z :=
  let i := rfind LPAREN name_qq in
  if i =? -1 then rfind LANGLE name_qq else i.

(** [name_qq[:left_parenthesis_index]]. *)
Definition name_of (name_qq : pystr) : pystr :=
  slice None (Some (left_parenthesis_index name_qq)) name_qq.

(** [name_qq[left_parenthesis_index + 1:-1]]. *)
Definition qq_of (name_qq : pystr) : pystr :=
  slice (Some (left_parenthesis_index name_qq + 1)) (Some (-1)) name_qq.

(** The reserved sender ids. *)
Definition ANONYMOUS_QQ : pystr := py "80000000".
Definition SYSTEM_QQ : pystr := py "1000000".

Section GetStatistics.

(** The Unicode table behind [\d]: whether a code point is a decimal
    digit. *)
Variable isdecimal : char -> bool.

(** [jieba.lcut]. *)
Variable lcut : pystr -> list pystr.

(** [re.search(r"^\d{4}-\d{2}-\d{2}", i)]: the pattern is anchored at the
    start of the string, so the match, when there is one, is the first ten
    characters; the result is [group(0)]. *)
Definition re_search_date (i : pystr) : option pystr :=
  match i with
  | y1 :: y2 :: y3 :: y4 :: s1 :: m1 :: m2 :: s2 :: d1 :: d2 :: _ =>
      if isdecimal y1 && isdecimal y2 && isdecimal y3 && isdecimal y4
         && char_eqb s1 DASH
         && isdecimal m1 && isdecimal m2
         && char_eqb s2 DASH
         && isdecimal d1 && isdecimal d2
      then Some [y1; y2; y3; y4; s1; m1; m2; s2; d1; d2]
      else None
  | _ => None
  end.

Variable msg_filter : option (pystr -> pystr -> pystr -> pystr -> bool).
Variable msg_preprocessor : option (pystr -> pystr).
Variable word_filter : option (pystr -> bool).
Variable speak_filter : option (pystr -> pystr -> bool).

(** The tallies of one record that passed [msg_filter]: the body of the
    innermost [if], for the line [i] and the fields [name], [qq] read from
    the header before it. *)
Definition tally (st : loop_state) (name qq i : pystr) : loop_state :=
  let total_counts' := incr (total_counts st) (prev_date st) in
  let annoy_counts' :=
    if decide (qq = ANONYMOUS_QQ) then incr (annoy_counts st) (prev_date st)
    else annoy_counts st in
  let speaks := passes2 speak_filter name qq in
  let speak_counts' :=
    if speaks then incr (speak_counts st) qq else speak_counts st in
  let card_names' :=
    if speaks then <[qq := name]> (card_names st) else card_names st in
  let i' := preprocess msg_preprocessor i in
  let words' := words st ++ List.filter (passes1 word_filter) (lcut i') in
  LoopState false (prev_info_line st) (prev_date st)
    words' total_counts' annoy_counts' speak_counts' card_names'.

(** The [elif prev_is_info_line:] branch: the line [i] is the body of the
    header held in [prev_info_line]. *)
Definition body_line (st : loop_state) (i : pystr) : loop_state :=
  let name_qq := name_qq_of (prev_info_line st) in
  let name := name_of name_qq in
  let qq := qq_of name_qq in
  if passes4 msg_filter (prev_date st) name qq i
  then tally st name qq i
  else LoopState false (prev_info_line st) (prev_date st) (words st)
         (total_counts st) (annoy_counts st) (speak_counts st) (card_names st).

(** One iteration of [for i in f]. *)
Definition loop_body (st : loop_state) (line : pystr) : loop_state :=
  let i := strip line in
  match re_search_date i with
  | Some date =>
      LoopState true i date (words st)
        (total_counts st) (annoy_counts st) (speak_counts st) (card_names st)
  | None =>
      if prev_is_info_line st then body_line st i
      else LoopState false (prev_info_line st) (prev_date st) (words st)
             (total_counts st) (annoy_counts st) (speak_counts st) (card_names st)
  end.

Definition run_loop (st : loop_state) (lines : list pystr) : loop_state :=
  fold_left loop_body lines st.

(** [get_statistics], on the lines of the file at [msgs_path]. *)
Definition get_statistics (lines : list pystr) : statistics :=
  result_of (run_loop initial_state lines).

End GetStatistics.

(** ** A call of [get_statistics] in the interpreter's store *)

(** The objects a call creates and mutates: the word list and the four
    dictionaries.  A store maps references to objects; what earlier calls
    created is still in it when a call starts. *)
Inductive object : Type :=
| ListObj (l : list pystr)
| CountsObj (d : gmap pystr Z)
| NamesObj (d : gmap pystr pystr).

Abbreviation store := (gmap positive object).

(** [[]] and [{}]: a new object, at a reference the store does not hold. *)
Definition new (o : object) (s : store) : positive * store :=
  let r := fresh (dom s) in (r, <[r := o]> s).

(** A mutation of the object at [r].  The script only applies a mutation to
    an object of the type it is written for; elsewhere the store is left as
    it is. *)
Definition mutate (r : positive) (f : object -> option object) (s : store) : store :=
  match s !! r with
  | Some o => match f o with Some o' => <[r := o']> s | None => s end
  | None => s
  end.

(** [words += ws] on the list at [r]. *)
Definition extend (r : positive) (ws : list pystr) : store -> store :=
  mutate r (fun o => match o with ListObj l => Some (ListObj (l ++ ws)) | _ => None end).

(** [if k in d: d[k] += 1 else: d[k] = 1] on the dictionary at [r]. *)
Definition increment (r : positive) (k : pystr) : store -> store :=
  mutate r (fun o => match o with CountsObj d => Some (CountsObj (incr d k)) | _ => None end).

(** [d[k] = v] on the dictionary at [r]. *)
Definition set_item (r : positive) (k v : pystr) : store -> store :=
  mutate r (fun o => match o with NamesObj d => Some (NamesObj (<[k := v]> d)) | _ => None end).

(** The references held by [words], [total_counts], [annoy_counts],
    [speak_counts] and [card_names]: assigned once, before the loop. *)
Record references : Type := References {
  words_ref : positive;
  total_ref : positive;
  annoy_ref : positive;
  speak_ref : positive;
  names_ref : positive
}.

(** The variables of the loop that hold values. *)
Record locals : Type := Locals {
  is_info_line : bool;
  info_line : pystr;
  info_date : pystr
}.

(** The values behind the five references. *)
Definition read (R : references) (s : store) : option statistics :=
  match s !! words_ref R, s !! total_ref R, s !! annoy_ref R,
        s !! speak_ref R, s !! names_ref R with
  | Some (ListObj w), Some (CountsObj t), Some (CountsObj a),
    Some (CountsObj sp), Some (NamesObj n) => Some (w, t, a, sp, n)
  | _, _, _, _, _ => None
  end.

Section CallGetStatistics.

Variable isdecimal : char -> bool.
Variable lcut : pystr -> list pystr.
Variable msg_filter : option (pystr -> pystr -> pystr -> pystr -> bool).
Variable msg_preprocessor : option (pystr -> pystr).
Variable word_filter : option (pystr -> bool).
Variable speak_filter : option (pystr -> pystr -> bool).

Variable R : references.

(** The tallies of one accepted record, as mutations of the store. *)
Definition tally_in (d name qq i : pystr) (s : store) : store :=
  let s1 := increment (total_ref R) d s in
  let s2 := if decide (qq = ANONYMOUS_QQ) then increment (annoy_ref R) d s1 else s1 in
  let s3 :=
    if passes2 speak_filter name qq
    then set_item (names_ref R) qq name (increment (speak_ref R) qq s2)
    else s2 in
  extend (words_ref R)
    (List.filter (passes1 word_filter) (lcut (preprocess msg_preprocessor i))) s3.

(** One iteration of the loop, on the values and on the store. *)
Definition loop_body_in (c : locals * store) (line : pystr) : locals * store :=
  let '(v, s) := c in
  let i := strip line in
  match re_search_date isdecimal i with
  | Some d => (Locals true i d, s)
  | None =>
      if is_info_line v then
        let name_qq := name_qq_of (info_line v) in
        let name := name_of name_qq in
        let qq := qq_of name_qq in
        if passes4 msg_filter (info_date v) name qq i
        then (Locals false (info_line v) (info_date v),
              tally_in (info_date v) name qq i s)
        else (Locals false (info_line v) (info_date v), s)
      else (Locals false (info_line v) (info_date v), s)
  end.

End CallGetStatistics.

(** A call of [get_statistics] in the store [s]: the five objects are
    created, the loop runs, and the call returns the references with the
    store it leaves. *)
Definition call_get_statistics (isdecimal : char -> bool) (lcut : pystr -> list pystr)
    (msg_filter : option (pystr -> pystr -> pystr -> pystr -> bool))
    (msg_preprocessor : option (pystr -> pystr))
    (word_filter : option (pystr -> bool))
    (speak_filter : option (pystr -> pystr -> bool))
    (lines : list pystr) (s : store) : references * store :=
  let '(w, s) := new (ListObj []) s in
  let '(t, s) := new (CountsObj ∅) s in
  let '(a, s) := new (CountsObj ∅) s in
  let '(sp, s) := new (CountsObj ∅) s in
  let '(n, s) := new (NamesObj ∅) s in
  let R := References w t a sp n in
  (R, snd (fold_left
             (loop_body_in isdecimal lcut msg_filter msg_preprocessor word_filter
                speak_filter R)
             lines (Locals false [] [], s))).

(** ** The filters and the preprocessor the script installs *)

(** The stop-word set: [stop_words.add(i.strip())] for every line of
    [stopwords.dat]. *)
Definition load_stop_words (lines : list pystr) : gset pystr :=
  fold_left (fun stop_words i => {[ strip i ]} ∪ stop_words) lines ∅.

(** The notices [qq_msg_filter_common] looks for. *)
Definition ANONYMOUS_RECALLED : pystr :=
  [19968; 26465; 21311; 21517; 28040; 24687; 34987; 25764; 22238]%N.
Definition MEMBER_RECALLED : pystr :=
  [25764; 22238; 20102; 19968; 26465; 25104; 21592; 28040; 24687]%N.
Definition RECALLED : pystr :=
  [25764; 22238; 20102; 19968; 26465; 28040; 24687]%N.
Definition ESSENCE : pystr :=
  [34987; 35774; 20026; 20102; 31934; 21326; 28040; 24687]%N.
Definition UNSUPPORTED : pystr :=
  [19981; 25903; 25345; 30340; 28040; 24687; 31867; 22411]%N.
Definition USE_LATEST : pystr :=
  [35831; 20351; 29992; 26368; 26032; 29256; 25163; 26426; 81; 81]%N.

Definition qq_msg_filter_common (qq msg : pystr) : bool :=
  negb (bool_decide (qq = SYSTEM_QQ)
        || contains ANONYMOUS_RECALLED msg
        || contains MEMBER_RECALLED msg
        || contains RECALLED msg
        || contains ESSENCE msg
        || contains UNSUPPORTED msg
        || contains USE_LATEST msg).

(** The pattern [.* ] tried at the start of [t], the way a backtracking
    matcher does: the dot takes every character but a line feed, as many as
    it can, and gives characters back until a space follows.  The result is
    the length of the match. *)
Fixpoint dots_then_space (t : pystr) : option nat :=
  match t with
  | [] => None
  | c :: t' =>
      if char_eqb c LF then None
      else match dots_then_space t' with
           | Some n => Some (S n)
           | None => if char_eqb c SPACE then Some 1%nat else None
           end
  end.

(** The pattern [@.+ ] tried at the start of [s]: the length of the match. *)
Definition match_mention (s : pystr) : option nat :=
  match s with
  | a :: c :: t =>
      if char_eqb a AT && negb (char_eqb c LF)
      then option_map (fun n => S (S n)) (dots_then_space t)
      else None
  | _ => None
  end.

(** [re.sub("@.+ ", "", s)]: the string is scanned from the left, every
    match is dropped and the scan resumes behind it; a character no match
    starts at is kept.  [skip] counts the characters of the current match
    still to drop. *)
Fixpoint re_sub_mention (skip : nat) (s : pystr) : pystr :=
  match s with
  | [] => []
  | c :: s' =>
      match skip with
      | S k => re_sub_mention k s'
      | O =>
          match match_mention s with
          | Some (S n) => re_sub_mention n s'
          | _ => c :: re_sub_mention 0 s'
          end
      end
  end.

Definition qq_msg_preprocessor (msg : pystr) : pystr := re_sub_mention 0 msg.

Definition qq_word_filter (stop_words : gset pystr) (word : pystr) : bool :=
  (1 <? len word) && negb (bool_decide (word ∈ stop_words)).

Definition no_annoy_sys_speak_filter (name qq : pystr) : bool :=
  negb (bool_decide (qq = ANONYMOUS_QQ)) && negb (bool_decide (qq = SYSTEM_QQ)).

(** ** The specification's notions *)

(** The specification's record: the fields [msg_filter] is called with. *)
Record record : Type := Record_ {
  date : pystr;
  senderName : pystr;
  senderId : pystr;
  message : pystr
}.

(** The records of a transcript, as the specification describes them: a
    header line followed at once by a line that is not a header makes one
    record, and nothing else does. *)
Fixpoint records (isdecimal : char -> bool) (lines : list pystr) : list record :=
  match lines with
  | [] => []
  | h :: rest =>
      match rest with
      | [] => []
      | b :: _ =>
          match re_search_date isdecimal (strip h),
                re_search_date isdecimal (strip b) with
          | Some d, None =>
              let name_qq := name_qq_of (strip h) in
              Record_ d (name_of name_qq) (qq_of name_qq) (strip b)
                :: records isdecimal rest
          | _, _ => records isdecimal rest
          end
      end
  end.

Definition accepted (msg_filter : option (pystr -> pystr -> pystr -> pystr -> bool))
    (r : record) : bool :=
  passes4 msg_filter (date r) (senderName r) (senderId r) (message r).

(** The records [msg_filter] accepts. *)
Definition accepted_records (isdecimal : char -> bool)
    (msg_filter : option (pystr -> pystr -> pystr -> pystr -> bool))
    (lines : list pystr) : list record :=
  List.filter (accepted msg_filter) (records isdecimal lines).

(** The delimiter the specification names for a name field: the opening
    parenthesis when the field has one, else the opening angle bracket when
    the field has one. *)
Definition delimiter_of (name_qq : pystr) : option char :=
  if bool_decide (LPAREN ∈ name_qq) then Some LPAREN
  else if bool_decide (LANGLE ∈ name_qq) then Some LANGLE
  else None.

(** Mention stripping as the specification words it: an [@], the characters
    after it that are not spaces, and the space that ends them, are dropped;
    an [@] with no such space after it is kept.  [run] is true inside a
    mention being dropped. *)
Fixpoint has_space (s : pystr) : bool :=
  match s with
  | [] => false
  | c :: s' => char_eqb c SPACE || has_space s'
  end.

Fixpoint strip_mentions_from (run : bool) (s : pystr) : pystr :=
  match s with
  | [] => []
  | c :: s' =>
      if run then
        if char_eqb c SPACE then strip_mentions_from false s'
        else strip_mentions_from true s'
      else if char_eqb c AT && negb (starts_with [SPACE] s') && has_space s'
           then strip_mentions_from true s'
           else c :: strip_mentions_from false s'
  end.

Definition strip_mentions (msg : pystr) : pystr := strip_mentions_from false msg.

(** ** Test data *)

(** The decimal digits of ASCII. *)
Definition ascii_isdecimal (c : char) : bool := ((48 <=? c) && (c <=? 57))%N.

(** A stand-in for the segmenter: the non-empty fields between spaces. *)
Definition space_lcut (s : pystr) : list pystr :=
  List.filter (fun w => negb (bool_decide (w = []))) (split SPACE s).

Definition alice_transcript : list pystr :=
  [py "2023-09-15 10:00:00 Alice(111)" ++ [LF]; py "hello world" ++ [LF]].

Definition anonymous_transcript : list pystr :=
  [py "2023-09-15 10:00:00 Ghost(80000000)" ++ [LF]; py "boo" ++ [LF]].

(** ** Notions used in the proofs *)

(** Every stored count is at least one. *)
Definition counts_positive (d : gmap pystr Z) : Prop :=
  forall k v, d !! k = Some v -> 1 <= v.

(** What the loop keeps true of the two day-count maps. *)
Definition day_counts_ok (st : loop_state) : Prop :=
  dom (annoy_counts st) ⊆ dom (total_counts st)
  /\ counts_positive (total_counts st)
  /\ counts_positive (annoy_counts st).

(** The state after a header line. *)
Definition after_header (st : loop_state) (i d : pystr) : loop_state :=
  LoopState true i d (words st)
    (total_counts st) (annoy_counts st) (speak_counts st) (card_names st).

(** The state after a body line [msg_filter] rejects. *)
Definition after_rejected (st : loop_state) : loop_state :=
  LoopState false (prev_info_line st) (prev_date st) (words st)
    (total_counts st) (annoy_counts st) (speak_counts st) (card_names st).

(** A line leaves the four dictionaries as they are, or is the body of an
    accepted record and tallies it. *)
Inductive line_effect (lcut : pystr -> list pystr)
    (msg_preprocessor : option (pystr -> pystr))
    (word_filter : option (pystr -> bool))
    (speak_filter : option (pystr -> pystr -> bool))
    (st st' : loop_state) : Prop :=
| effect_none :
    total_counts st' = total_counts st ->
    annoy_counts st' = annoy_counts st ->
    speak_counts st' = speak_counts st ->
    card_names st' = card_names st ->
    line_effect lcut msg_preprocessor word_filter speak_filter st st'
| effect_tally (name qq i : pystr) :
    st' = tally lcut msg_preprocessor word_filter speak_filter st name qq i ->
    line_effect lcut msg_preprocessor word_filter speak_filter st st'.

(** The records still to come when the loop is in state [st] and [lines]
    remain: the pending header of [st] makes a record with the next line,
    and then come the records of [lines]. *)
Definition pending (isdecimal : char -> bool) (st : loop_state)
    (lines : list pystr) : list record :=
  match lines with
  | [] => []
  | b :: _ =>
      if prev_is_info_line st then
        match re_search_date isdecimal (strip b) with
        | None =>
            let name_qq := name_qq_of (prev_info_line st) in
            [Record_ (prev_date st) (name_of name_qq) (qq_of name_qq) (strip b)]
        | Some _ => []
        end
      else []
  end ++ records isdecimal lines.

(** The references of a call. *)
Definition references_of (R : references) : list positive :=
  [words_ref R; total_ref R; annoy_ref R; speak_ref R; names_ref R].

(** The store holds, behind the references [R], the word list and the
    dictionaries of the loop state [st]. *)
Definition holds (R : references) (s : store) (st : loop_state) : Prop :=
  s !! words_ref R = Some (ListObj (words st))
  /\ s !! total_ref R = Some (CountsObj (total_counts st))
  /\ s !! annoy_ref R = Some (CountsObj (annoy_counts st))
  /\ s !! speak_ref R = Some (CountsObj (speak_counts st))
  /\ s !! names_ref R = Some (NamesObj (card_names st)).

(** The values and the store of a call agree with a loop state. *)
Definition agrees (R : references) (c : locals * store) (st : loop_state) : Prop :=
  is_info_line c.1 = prev_is_info_line st
  /\ info_line c.1 = prev_info_line st
  /\ info_date c.1 = prev_date st
  /\ holds R c.2 st.

(** ** The loop as a fold over records *)

(** The tallies of one accepted record, on the five results: what [tally]
    does to the word list and the dictionaries, read from the record. *)
Definition tally_record (lcut : pystr -> list pystr)
    (msg_preprocessor : option (pystr -> pystr))
    (word_filter : option (pystr -> bool))
    (speak_filter : option (pystr -> pystr -> bool))
    (acc : statistics) (r : record) : statistics :=
  let '(w, t, a, s, c) := acc in
  let speaks := passes2 speak_filter (senderName r) (senderId r) in
  (w ++ List.filter (passes1 word_filter) (lcut (preprocess msg_preprocessor (message r))),
   incr t (date r),
   if decide (senderId r = ANONYMOUS_QQ) then incr a (date r) else a,
   if speaks then incr s (senderId r) else s,
   if speaks then <[senderId r := senderName r]> c else c).

(** How many records of a list satisfy a test. *)
Definition count_records (p : record -> bool) (rs : list record) : Z :=
  Z.of_nat (length (List.filter p rs)).

(** The tokens one record adds to the word list. *)
Definition tokens_of (lcut : pystr -> list pystr)
    (msg_preprocessor : option (pystr -> pystr))
    (word_filter : option (pystr -> bool)) (r : record) : list pystr :=
  List.filter (passes1 word_filter) (lcut (preprocess msg_preprocessor (message r))).

(** The test [speak_filter] applies to a record of the sender [qq]. *)
Definition speaks_as (speak_filter : option (pystr -> pystr -> bool))
    (qq : pystr) (r : record) : bool :=
  bool_decide (senderId r = qq) && passes2 speak_filter (senderName r) (senderId r).

(** ** Dictionaries in insertion order *)

(** A [dict] with the order of its items: the items in the order their keys
    were first inserted, one item per key. *)
Abbreviation odict V := (list (pystr * V)).

(** [d.get(k)]: the value at [k], if [k in d]. *)
Fixpoint od_get {V : Type} (d : odict V) (k : pystr) : option V :=
  match d with
  | [] => None
  | (k', v) :: d' => if decide (k' = k) then Some v else od_get d' k
  end.

(** [d[k] = v]: the item of an existing key is updated where it stands, a
    new key goes to the end. *)
Fixpoint od_set {V : Type} (d : odict V) (k : pystr) (v : V) : odict V :=
  match d with
  | [] => [(k, v)]
  | (k', v') :: d' =>
      if decide (k' = k) then (k', v) :: d' else (k', v') :: od_set d' k v
  end.

(** [if k in d: d[k] += 1 else: d[k] = 1]. *)
Definition od_incr (d : odict Z) (k : pystr) : odict Z :=
  match od_get d k with
  | Some c => od_set d k (c + 1)
  | None => od_set d k 1
  end.

(** The keys, in iteration order. *)
Definition od_keys {V : Type} (d : odict V) : list pystr := map fst d.

(** What [get_statistics] returns, with the order of the dictionaries. *)
Definition ostatistics : Type :=
  (list pystr * odict Z * odict Z * odict Z * odict pystr)%type.

Section GetStatisticsOrdered.

Variable isdecimal : char -> bool.
Variable lcut : pystr -> list pystr.
Variable msg_filter : option (pystr -> pystr -> pystr -> pystr -> bool).
Variable msg_preprocessor : option (pystr -> pystr).
Variable word_filter : option (pystr -> bool).
Variable speak_filter : option (pystr -> pystr -> bool).

(** The tallies of one accepted record, on ordered dictionaries. *)
Definition tally_ordered (d name qq i : pystr) (acc : ostatistics) : ostatistics :=
  let '(w, t, a, s, c) := acc in
  let speaks := passes2 speak_filter name qq in
  (w ++ List.filter (passes1 word_filter) (lcut (preprocess msg_preprocessor i)),
   od_incr t d,
   if decide (qq = ANONYMOUS_QQ) then od_incr a d else a,
   if speaks then od_incr s qq else s,
   if speaks then od_set c qq name else c).

(** One iteration of the loop, on ordered dictionaries. *)
Definition loop_body_ordered (c : locals * ostatistics) (line : pystr)
    : locals * ostatistics :=
  let '(v, acc) := c in
  let i := strip line in
  match re_search_date isdecimal i with
  | Some d => (Locals true i d, acc)
  | None =>
      if is_info_line v then
        let name_qq := name_qq_of (info_line v) in
        let name := name_of name_qq in
        let qq := qq_of name_qq in
        if passes4 msg_filter (info_date v) name qq i
        then (Locals false (info_line v) (info_date v),
              tally_ordered (info_date v) name qq i acc)
        else (Locals false (info_line v) (info_date v), acc)
      else (Locals false (info_line v) (info_date v), acc)
  end.

(** [get_statistics], with the order of the dictionaries it returns. *)
Definition get_statistics_ordered (lines : list pystr) : ostatistics :=
  snd (fold_left loop_body_ordered lines (Locals false [] [], ([], [], [], [], []))).

End GetStatisticsOrdered.

(** ** The reports *)

(** The fourth cell of a row of the counts sheet: the integer [0] the
    variable [annoy_percent] starts with, or the float
    [100 * annoy_count / total_counts[i]], kept as the two integers that are
    divided. *)
Inductive percent_cell : Type :=
| PercentZero
| PercentOf (numerator denominator : Z).

Record counts_row : Type := CountsRow {
  row_date : pystr;
  row_total : Z;
  row_annoy : Z;
  row_percent : percent_cell
}.

(** [save_counts_xlsx]: the rows appended to the sheet, one per item of
    [total_counts] in iteration order. *)
Definition save_counts_xlsx (total_counts annoy_counts : odict Z) : list counts_row :=
  map (fun item : pystr * Z =>
         let i := item.1 in
         let annoy_count :=
           match od_get annoy_counts i with Some c => c | None => 0 end in
         let annoy_percent :=
           if decide (item.2 <> 0) then PercentOf (100 * annoy_count) item.2
           else PercentZero in
         CountsRow i item.2 annoy_count annoy_percent)
      total_counts.

(** [l.sort(key=lambda x: x[1], reverse=True)]: a stable sort by decreasing
    count; items with equal counts keep their order. *)
Fixpoint insert_by_count {A : Type} (x : A * Z) (l : list (A * Z)) : list (A * Z) :=
  match l with
  | [] => [x]
  | y :: l' => if x.2 <? y.2 then y :: insert_by_count x l' else x :: l
  end.

Fixpoint sort_by_count {A : Type} (l : list (A * Z)) : list (A * Z) :=
  match l with
  | [] => []
  | x :: l' => insert_by_count x (sort_by_count l')
  end.

(** [[[card_names[qq], speak_counts[qq]] for qq in speak_counts]]; [None]
    when a [card_names[qq]] raises [KeyError]. *)
Fixpoint name_counts (speak_counts : odict Z) (card_names : odict pystr)
    : option (list (pystr * Z)) :=
  match speak_counts with
  | [] => Some []
  | (qq, n) :: rest =>
      match od_get card_names qq with
      | None => None
      | Some name =>
          match name_counts rest card_names with
          | None => None
          | Some rows => Some ((name, n) :: rows)
          end
      end
  end.

(** [save_speak_counts_xlsx]: the rows appended to the sheet, or [None]
    when the function raises [KeyError]. *)
Definition save_speak_counts_xlsx (speak_counts : odict Z) (card_names : odict pystr)
    : option (list (pystr * Z)) :=
  option_map sort_by_count (name_counts speak_counts card_names).

(** [l[:stop]] on any list. *)
Definition slice_to {A : Type} (stop : Z) (l : list A) : list A :=
  take (Z.to_nat (slice_bound (Z.of_nat (length l)) stop)) l.

(** [print_top_words]: the lines printed. *)
Definition print_top_words (words : list pystr) (top_count : Z) : list pystr :=
  let counts := fold_left od_incr words [] in
  let sorted := sort_by_count counts in
  let top_count := Z.min top_count (Z.of_nat (length sorted)) in
  map fst (slice_to top_count sorted).

(** ** The date filter the script installs *)

Section DateFilter.

(** [int(s)] on a string; [None] when it raises [ValueError]. *)
Variable py_int : pystr -> option Z.

(** [qq_msg_filter_10days]; [None] when it raises ([IndexError] from
    [date.split("-")[2]], [ValueError] from [int]). *)
Definition qq_msg_filter_10days (date name qq msg : pystr) : option bool :=
  match split DASH date !! 2%nat with
  | None => None
  | Some field =>
      match py_int field with
      | None => None
      | Some day =>
          Some ((starts_with (py "2023-09-") date && (14 <=? day) && (day <=? 23))
                && qq_msg_filter_common qq msg)
      end
  end.

End DateFilter.

(** ** Notions used in the proofs of the reports *)

(** The results without the order of the dictionaries. *)
Definition unordered (r : ostatistics) : statistics :=
  let '(w, t, a, s, c) := r in
  (w, list_to_map t, list_to_map a, list_to_map s, list_to_map c).

(** The distinct elements of a list, each at its first occurrence. *)
Fixpoint first_seen (l : list pystr) : list pystr :=
  match l with
  | [] => []
  | x :: l' => x :: List.filter (fun y => negb (bool_decide (y = x))) (first_seen l')
  end.

(** The tallies of one accepted record, read from the record. *)
Definition tally_record_ordered (lcut : pystr -> list pystr)
    (msg_preprocessor : option (pystr -> pystr))
    (word_filter : option (pystr -> bool))
    (speak_filter : option (pystr -> pystr -> bool))
    (acc : ostatistics) (r : record) : ostatistics :=
  tally_ordered lcut msg_preprocessor word_filter speak_filter
    (date r) (senderName r) (senderId r) (message r) acc.

(** A key is added at the end unless it is there. *)
Definition add_key (keys : list pystr) (k : pystr) : list pystr :=
  if bool_decide (k ∈ keys) then keys else keys ++ [k].

(** How often a word occurs in a list. *)
Definition occurrences (w : pystr) (words : list pystr) : Z :=
  Z.of_nat (length (List.filter (fun x => bool_decide (x = w)) words)).

(** The order of the rows of a ranking: no count after a higher count. *)
Definition by_decreasing_count {A : Type} (x y : A * Z) : Prop := y.2 <= x.2.

(** [int] on strings of ASCII digits, for tests: the number they write, and
    [None] on any other string. *)
Definition ascii_int (s : pystr) : option Z :=
  match s with
  | [] => None
  | _ =>
      if forallb ascii_isdecimal s
      then Some (fold_left (fun n c => 10 * n + (Z.of_N c - 48)) s 0)
      else None
  end.

(** [qq_msg_filter_10days] as the [msg_filter] of a run; the value chosen
    where the filter raises is never used, since it does not raise on the
    dates the loop calls it with. *)
Definition msg_filter_10days (py_int : pystr -> option Z)
    (date name qq msg : pystr) : bool :=
  default false (qq_msg_filter_10days py_int date name qq msg).

(** The second of the five results. *)
Definition total_counts_of (r : statistics) : gmap pystr Z := r.1.1.1.2.

(** * Properties *)

(** ** Strings *)

Lemma char_eqb_eq (a b : char) : char_eqb a b = true <-> a = b.
Proof. unfold char_eqb. apply N.eqb_eq. Qed.

Lemma char_eqb_refl (a : char) : char_eqb a a = true.
Proof. apply char_eqb_eq. reflexivity. Qed.

Lemma split_cons_sep (sep : char) (s : pystr) :
  split sep (sep :: s) = [] :: split sep s.
Proof. simpl. rewrite char_eqb_refl. reflexivity. Qed.

Lemma split_not_nil (sep : char) (s : pystr) : split sep s <> [].
Proof.
  destruct s as [|c s]; simpl; [discriminate|].
  destruct (char_eqb c sep); [discriminate|].
  destruct (split sep s); discriminate.
Qed.

(** A field that holds no separator is the first field of the split. *)
Lemma split_field (sep : char) (t rest : pystr) :
  sep ∉ t -> split sep (t ++ sep :: rest) = t :: split sep rest.
Proof.
  induction t as [|c t IH]; intros Hsep.
  - apply split_cons_sep.
  - apply not_elem_of_cons in Hsep as [Hc Ht].
    change ((c :: t) ++ sep :: rest) with (c :: (t ++ sep :: rest)).
    cbn [split]. rewrite IH by exact Ht.
    destruct (char_eqb c sep) eqn:E; [|reflexivity].
    apply char_eqb_eq in E. congruence.
Qed.

(** Joining the fields of a split with the separator gives the string
    back. *)
Lemma join_split (sep : char) (s : pystr) : join [sep] (split sep s) = s.
Proof.
  induction s as [|c s IH]; [reflexivity|].
  cbn [split]. destruct (char_eqb c sep) eqn:E.
  - apply char_eqb_eq in E. subst c.
    pose proof (split_not_nil sep s) as Hne.
    destruct (split sep s) as [|w ws] eqn:Es; [congruence|].
    cbn [join]. cbn [join] in IH. simpl. f_equal. exact IH.
  - destruct (split sep s) as [|w ws] eqn:Es.
    + exfalso. eapply split_not_nil. exact Es.
    + destruct ws as [|w' ws]; cbn [join] in *; simpl; f_equal; exact IH.
Qed.

Lemma name_qq_of_fields (t0 t1 rest : pystr) :
  SPACE ∉ t0 -> SPACE ∉ t1 ->
  name_qq_of (t0 ++ [SPACE] ++ t1 ++ [SPACE] ++ rest) = rest.
Proof.
  intros H0 H1. unfold name_qq_of. simpl app.
  rewrite split_field by exact H0.
  rewrite split_field by exact H1.
  cbn [drop]. apply join_split.
Qed.

Lemma rfind_from_app (c : char) (a b : pystr) (i last : Z) :
  rfind_from c (a ++ b) i last = rfind_from c b (i + len a) (rfind_from c a i last).
Proof.
  revert i last. induction a as [|x a IH]; intros i last.
  - simpl. unfold len. simpl. f_equal. lia.
  - simpl. rewrite IH. f_equal. unfold len. simpl length. lia.
Qed.

Lemma rfind_from_absent (c : char) (s : pystr) (i last : Z) :
  c ∉ s -> rfind_from c s i last = last.
Proof.
  revert i last. induction s as [|x s IH]; intros i last Hc; [reflexivity|].
  apply not_elem_of_cons in Hc as [Hx Hs]. simpl.
  destruct (char_eqb x c) eqn:E.
  - apply char_eqb_eq in E. congruence.
  - apply IH. exact Hs.
Qed.

Lemma rfind_absent (c : char) (s : pystr) : c ∉ s -> rfind c s = -1.
Proof. apply rfind_from_absent. Qed.

(** [rfind] finds the last occurrence. *)
Lemma rfind_last (c : char) (pre post : pystr) :
  c ∉ post -> rfind c (pre ++ [c] ++ post) = len pre.
Proof.
  intros Hc. unfold rfind. rewrite rfind_from_app. simpl.
  rewrite char_eqb_refl. rewrite rfind_from_absent by exact Hc. lia.
Qed.

Lemma len_nonneg (s : pystr) : 0 <= len s.
Proof. unfold len. lia. Qed.

Lemma len_app (a b : pystr) : len (a ++ b) = len a + len b.
Proof. unfold len. rewrite length_app. lia. Qed.

Lemma take_pred_removelast (s : pystr) :
  take (Z.to_nat (len s - 1)) s = removelast s.
Proof.
  unfold len. replace (Z.to_nat (Z.of_nat (length s) - 1)) with (pred (length s)) by lia.
  symmetry. apply removelast_firstn_len.
Qed.

Lemma slice_bound_minus_one (n : Z) : slice_bound n (-1) = Z.max 0 (n - 1).
Proof. unfold slice_bound. change (-1 <? 0) with true. cbv iota. lia. Qed.

Lemma slice_bound_inside (n i : Z) : 0 <= i <= n -> slice_bound n i = i.
Proof. intros H. unfold slice_bound. destruct (i <? 0) eqn:E; lia. Qed.

(** [s[:-1]] and [s[0:-1]] are [s] without its last character. *)
Lemma slice_to_minus_one (s : pystr) : slice None (Some (-1)) s = removelast s.
Proof.
  unfold slice. rewrite slice_bound_minus_one.
  destruct s as [|x s]; [reflexivity|].
  rewrite Z.max_r by (unfold len; simpl length; lia).
  rewrite Z.sub_0_r. simpl drop. apply take_pred_removelast.
Qed.

Lemma slice_zero_to_minus_one (s : pystr) :
  slice (Some 0) (Some (-1)) s = removelast s.
Proof.
  rewrite <- slice_to_minus_one. unfold slice.
  rewrite (slice_bound_inside (len s) 0) by (pose proof (len_nonneg s); lia).
  reflexivity.
Qed.

(** [s[:len(pre)]] is [pre] when [s] starts with [pre]. *)
Lemma slice_prefix (pre rest : pystr) :
  slice None (Some (len pre)) (pre ++ rest) = pre.
Proof.
  unfold slice.
  pose proof (len_nonneg pre). pose proof (len_nonneg rest).
  rewrite slice_bound_inside by (rewrite len_app; lia).
  simpl drop. rewrite Z.sub_0_r. unfold len. rewrite Nat2Z.id.
  apply take_app_length.
Qed.

(** [s[len(pre) + 1:-1]] is what follows the delimiter, without the last
    character. *)
Lemma slice_after_delimiter (pre post : pystr) (d : char) :
  slice (Some (len pre + 1)) (Some (-1)) (pre ++ [d] ++ post) = removelast post.
Proof.
  unfold slice.
  pose proof (len_nonneg pre). pose proof (len_nonneg post).
  rewrite slice_bound_minus_one.
  rewrite !len_app. change (len [d]) with 1.
  rewrite slice_bound_inside by lia. rewrite Z.max_r by lia.
  replace (Z.to_nat (len pre + 1)) with (length (pre ++ [d])).
  2:{ rewrite length_app. unfold len. simpl. lia. }
  rewrite app_assoc. rewrite drop_app_length.
  replace (len pre + (1 + len post) - 1 - (len pre + 1)) with (len post - 1) by lia.
  apply take_pred_removelast.
Qed.

(** ** Header fields *)

Lemma left_parenthesis_index_delimiter (name_qq pre post : pystr) (d : char) :
  delimiter_of name_qq = Some d ->
  name_qq = pre ++ [d] ++ post ->
  d ∉ post ->
  left_parenthesis_index name_qq = len pre.
Proof.
  intros Hd Hsplit Hlast. unfold delimiter_of in Hd. unfold left_parenthesis_index.
  pose proof (len_nonneg pre) as Hpre.
  destruct (bool_decide (LPAREN ∈ name_qq)) eqn:Ep.
  - injection Hd as <-. subst name_qq.
    rewrite rfind_last by exact Hlast.
    destruct (len pre =? -1) eqn:E; [lia|reflexivity].
  - apply bool_decide_eq_false in Ep.
    destruct (bool_decide (LANGLE ∈ name_qq)); [|discriminate].
    injection Hd as <-.
    rewrite rfind_absent by exact Ep. simpl.
    subst name_qq. apply rfind_last. exact Hlast.
Qed.

Lemma left_parenthesis_index_absent (name_qq : pystr) :
  LPAREN ∉ name_qq -> LANGLE ∉ name_qq -> left_parenthesis_index name_qq = -1.
Proof.
  intros Hp Ha. unfold left_parenthesis_index.
  rewrite rfind_absent by exact Hp. simpl. apply rfind_absent. exact Ha.
Qed.

(** C6.  The name field of a header line is what follows its first two
    space-separated tokens.  The field is cut at the last opening
    parenthesis, or at the last opening angle bracket when it has no
    parenthesis: the display name is what precedes the delimiter, the id is
    what lies between the delimiter and the last character.  The field
    [Bob<222>] gives the id [222], as [Bob(222)] does. *)
Theorem header_fields_cut_at_last_delimiter
    (h t0 t1 name_qq pre post : pystr) (d : char) :
  SPACE ∉ t0 -> SPACE ∉ t1 ->
  h = t0 ++ [SPACE] ++ t1 ++ [SPACE] ++ name_qq ->
  delimiter_of name_qq = Some d ->
  name_qq = pre ++ [d] ++ post ->
  d ∉ post ->
  name_qq_of h = name_qq
  /\ name_of (name_qq_of h) = pre
  /\ qq_of (name_qq_of h) = removelast post
  /\ qq_of (py "Bob<222>") = py "222"
  /\ qq_of (py "Bob(222)") = py "222".
Proof.
  intros H0 H1 Hh Hd Hsplit Hlast.
  assert (Hnq : name_qq_of h = name_qq).
  { subst h. apply name_qq_of_fields; assumption. }
  rewrite Hnq. split; [reflexivity|].
  pose proof (left_parenthesis_index_delimiter _ _ _ _ Hd Hsplit Hlast) as Hi.
  unfold name_of, qq_of. rewrite Hi. subst name_qq.
  split; [apply slice_prefix|].
  split; [apply slice_after_delimiter|].
  split; vm_compute; reflexivity.
Qed.

Lemma header_fields_cut_at_last_delimiter_witness :
  let h := py "2023-09-15 10:00:00 Bob<222>" in
  name_qq_of h = py "Bob<222>"
  /\ name_of (name_qq_of h) = py "Bob"
  /\ qq_of (name_qq_of h) = removelast (py "222>")
  /\ qq_of (py "Bob<222>") = py "222"
  /\ qq_of (py "Bob(222)") = py "222".
Proof.
  apply (header_fields_cut_at_last_delimiter
           (py "2023-09-15 10:00:00 Bob<222>") (py "2023-09-15") (py "10:00:00")
           (py "Bob<222>") (py "Bob") (py "222>") LANGLE).
  - apply (bool_decide_unpack _). vm_compute. exact I.
  - apply (bool_decide_unpack _). vm_compute. exact I.
  - reflexivity.
  - vm_compute. reflexivity.
  - reflexivity.
  - apply (bool_decide_unpack _). vm_compute. exact I.
Defined.

(** ** Dictionaries *)

Lemma incr_insert (d : gmap pystr Z) (k : pystr) :
  incr d k = <[k := count_of d k + 1]> d.
Proof. unfold incr, count_of. destruct (d !! k); reflexivity. Qed.

Lemma dom_incr (d : gmap pystr Z) (k : pystr) : dom (incr d k) = {[k]} ∪ dom d.
Proof. rewrite incr_insert. apply dom_insert_L. Qed.

Lemma sum_values_insert_fresh (d : gmap pystr Z) (k : pystr) (v : Z) :
  d !! k = None -> sum_values (<[k := v]> d) = sum_values d + v.
Proof.
  intros Hk. unfold sum_values.
  rewrite map_fold_insert_L; [reflexivity| |exact Hk].
  intros. lia.
Qed.

Lemma sum_values_insert (d : gmap pystr Z) (k : pystr) (v : Z) :
  sum_values (<[k := v]> d) = sum_values d - count_of d k + v.
Proof.
  unfold count_of. destruct (d !! k) as [c|] eqn:Hk; simpl.
  - rewrite <- (insert_delete_id d k c Hk) at 2.
    rewrite <- insert_delete_eq.
    rewrite !sum_values_insert_fresh by apply lookup_delete_eq. lia.
  - rewrite sum_values_insert_fresh by exact Hk. lia.
Qed.

Lemma sum_values_incr (d : gmap pystr Z) (k : pystr) :
  sum_values (incr d k) = sum_values d + 1.
Proof. rewrite incr_insert, sum_values_insert. lia. Qed.

Lemma counts_positive_empty : counts_positive ∅.
Proof. intros k v H. rewrite lookup_empty in H. discriminate. Qed.

Lemma counts_positive_incr (d : gmap pystr Z) (k : pystr) :
  counts_positive d -> counts_positive (incr d k).
Proof.
  intros Hd k' v. unfold incr. destruct (d !! k) as [c|] eqn:Hk.
  - destruct (decide (k = k')) as [<-|Hne].
    + rewrite lookup_insert_eq. intros [= <-]. specialize (Hd k c Hk). lia.
    + rewrite lookup_insert_ne by exact Hne. apply Hd.
  - destruct (decide (k = k')) as [<-|Hne].
    + rewrite lookup_insert_eq. intros [= <-]. lia.
    + rewrite lookup_insert_ne by exact Hne. apply Hd.
Qed.

(** ** The loop *)

Section Loop.

Variable isdecimal : char -> bool.
Variable lcut : pystr -> list pystr.
Variable msg_filter : option (pystr -> pystr -> pystr -> pystr -> bool).
Variable msg_preprocessor : option (pystr -> pystr).
Variable word_filter : option (pystr -> bool).
Variable speak_filter : option (pystr -> pystr -> bool).

Local Abbreviation tally' := (tally lcut msg_preprocessor word_filter speak_filter).
Local Abbreviation body_line' :=
  (body_line lcut msg_filter msg_preprocessor word_filter speak_filter).
Local Abbreviation loop_body' :=
  (loop_body isdecimal lcut msg_filter msg_preprocessor word_filter speak_filter).
Local Abbreviation run_loop' :=
  (run_loop isdecimal lcut msg_filter msg_preprocessor word_filter speak_filter).
Local Abbreviation get_statistics' :=
  (get_statistics isdecimal lcut msg_filter msg_preprocessor word_filter speak_filter).
Local Abbreviation line_effect' :=
  (line_effect lcut msg_preprocessor word_filter speak_filter).
Local Abbreviation pending' := (pending isdecimal).

Lemma loop_body_effect (st : loop_state) (line : pystr) :
  line_effect' st (loop_body' st line).
Proof.
  unfold loop_body.
  destruct (re_search_date isdecimal (strip line)) as [d|].
  - apply effect_none; reflexivity.
  - destruct (prev_is_info_line st).
    + unfold body_line.
      destruct (passes4 msg_filter _ _ _ _).
      * eapply effect_tally. reflexivity.
      * apply effect_none; reflexivity.
    + apply effect_none; reflexivity.
Qed.

(** A property of the dictionaries that tallying preserves holds when the
    loop ends. *)
Lemma run_loop_invariant (P : loop_state -> Prop) :
  (forall st st', line_effect' st st' -> P st -> P st') ->
  forall lines st, P st -> P (run_loop' st lines).
Proof.
  intros Hstep lines. induction lines as [|line lines IH]; intros st Hst.
  - exact Hst.
  - simpl. apply IH. eapply Hstep; [apply loop_body_effect|exact Hst].
Qed.

Lemma pending_idle (st : loop_state) (lines : list pystr) :
  prev_is_info_line st = false -> pending' st lines = records isdecimal lines.
Proof. intros H. unfold pending. rewrite H. destruct lines; reflexivity. Qed.

Lemma records_cons_header (st : loop_state) (l d : pystr) (lines : list pystr) :
  re_search_date isdecimal (strip l) = Some d ->
  prev_is_info_line st = true ->
  prev_info_line st = strip l ->
  prev_date st = d ->
  records isdecimal (l :: lines) = pending' st lines.
Proof.
  intros El H1 H2 H3. unfold pending. rewrite H1, H2, H3.
  cbn [records]. rewrite El.
  destruct lines as [|b rest]; [reflexivity|].
  destruct (re_search_date isdecimal (strip b)); reflexivity.
Qed.

Lemma records_cons_other (l : pystr) (lines : list pystr) :
  re_search_date isdecimal (strip l) = None ->
  records isdecimal (l :: lines) = records isdecimal lines.
Proof.
  intros El. cbn [records]. rewrite El.
  destruct lines as [|b rest]; reflexivity.
Qed.

Lemma tally_total (st : loop_state) (name qq i : pystr) :
  total_counts (tally' st name qq i) = incr (total_counts st) (prev_date st).
Proof. reflexivity. Qed.

Lemma tally_annoy (st : loop_state) (name qq i : pystr) :
  annoy_counts (tally' st name qq i) =
  if decide (qq = ANONYMOUS_QQ) then incr (annoy_counts st) (prev_date st)
  else annoy_counts st.
Proof. reflexivity. Qed.

Lemma filter_accepted_cons (d n q m : pystr) (rs : list record) :
  List.filter (accepted msg_filter) (Record_ d n q m :: rs) =
  if passes4 msg_filter d n q m
  then Record_ d n q m :: List.filter (accepted msg_filter) rs
  else List.filter (accepted msg_filter) rs.
Proof. reflexivity. Qed.

(** The total counts grow by one for every accepted record still to come. *)
Lemma run_loop_total (lines : list pystr) (st : loop_state) :
  sum_values (total_counts (run_loop' st lines)) =
  sum_values (total_counts st)
  + Z.of_nat (length (List.filter (accepted msg_filter) (pending' st lines))).
Proof.
  revert st. induction lines as [|l lines IH]; intros st.
  - simpl. lia.
  - change (run_loop' st (l :: lines)) with (run_loop' (loop_body' st l) lines).
    rewrite IH. clear IH.
    unfold pending at 2. unfold loop_body.
    destruct (re_search_date isdecimal (strip l)) as [d|] eqn:El.
    + replace (if prev_is_info_line st then [] else []) with (@nil record)
        by (destruct (prev_is_info_line st); reflexivity).
      cbn [app total_counts].
      erewrite (records_cons_header _ l d lines El); reflexivity.
    + rewrite (records_cons_other l lines El).
      destruct (prev_is_info_line st) eqn:Ep.
      * unfold body_line. cbn [app]. rewrite filter_accepted_cons.
        destruct (passes4 msg_filter _ _ _ _) eqn:Ef.
        -- rewrite tally_total, sum_values_incr. cbn [length].
           rewrite pending_idle by reflexivity. lia.
        -- cbn [total_counts]. rewrite pending_idle by reflexivity. reflexivity.
      * cbn [app total_counts]. rewrite pending_idle by reflexivity. reflexivity.
Qed.

Lemma pending_initial (lines : list pystr) :
  pending' initial_state lines = records isdecimal lines.
Proof. unfold pending. destruct lines; reflexivity. Qed.

(** C1.  The values of the total-count map add up to the number of records
    [msg_filter] accepts, and to no less than the values of the
    anonymous-count map do. *)
Theorem total_counts_sum_is_accepted_records (lines : list pystr) :
  let '(_, total_counts, annoy_counts, _, _) := get_statistics' lines in
  sum_values total_counts
    = Z.of_nat (length (accepted_records isdecimal msg_filter lines))
  /\ sum_values total_counts >= sum_values annoy_counts.
Proof.
  unfold get_statistics, result_of. split.
  - rewrite run_loop_total, pending_initial. reflexivity.
  - apply Z.le_ge.
    apply (run_loop_invariant
             (fun st => sum_values (annoy_counts st) <= sum_values (total_counts st))).
    + intros st st' [Ht Ha _ _|name qq i ->] Hst.
      * rewrite Ht, Ha. exact Hst.
      * rewrite tally_total, tally_annoy, sum_values_incr.
        destruct (decide (qq = ANONYMOUS_QQ)); [rewrite sum_values_incr|]; lia.
    + reflexivity.
Qed.

Lemma tally_speak (st : loop_state) (name qq i : pystr) :
  speak_counts (tally' st name qq i) =
  if passes2 speak_filter name qq then incr (speak_counts st) qq
  else speak_counts st.
Proof. reflexivity. Qed.

Lemma tally_card (st : loop_state) (name qq i : pystr) :
  card_names (tally' st name qq i) =
  if passes2 speak_filter name qq then <[qq := name]> (card_names st)
  else card_names st.
Proof. reflexivity. Qed.

(** C4.  The speak-count map and the card-name map have the same keys. *)
Theorem speak_counts_and_card_names_same_keys (lines : list pystr) :
  let '(_, _, _, speak_counts, card_names) := get_statistics' lines in
  (forall qq, is_Some (speak_counts !! qq) <-> is_Some (card_names !! qq))
  /\ dom speak_counts = dom card_names.
Proof.
  unfold get_statistics, result_of.
  assert (Hdom : dom (speak_counts (run_loop' initial_state lines))
                 = dom (card_names (run_loop' initial_state lines))).
  { apply (run_loop_invariant
             (fun st => dom (speak_counts st) = dom (card_names st))).
    - intros st st' [_ _ Hs Hc|name qq i ->] Hst.
      + rewrite Hs, Hc. exact Hst.
      + rewrite tally_speak, tally_card.
        destruct (passes2 speak_filter name qq); [|exact Hst].
        rewrite dom_incr, dom_insert_L, Hst. reflexivity.
    - reflexivity. }
  split; [|exact Hdom].
  intros qq. rewrite <- !elem_of_dom, Hdom. reflexivity.
Qed.

Lemma day_counts_ok_tally (st : loop_state) (name qq i : pystr) :
  day_counts_ok st -> day_counts_ok (tally' st name qq i).
Proof.
  intros (Hsub & Ht & Ha). unfold day_counts_ok.
  rewrite tally_total, tally_annoy.
  destruct (decide (qq = ANONYMOUS_QQ)).
  - rewrite !dom_incr.
    split; [apply union_mono_l; exact Hsub|].
    split; apply counts_positive_incr; [exact Ht|exact Ha].
  - rewrite dom_incr.
    split; [apply union_subseteq_r'; exact Hsub|].
    split; [apply counts_positive_incr; exact Ht|exact Ha].
Qed.

(** C5.  Every date of the anonymous-count map is a date of the total-count
    map, and no count stored in either map is zero: each is at least one. *)
Theorem day_counts_keys_and_no_zero (lines : list pystr) :
  let '(_, total_counts, annoy_counts, _, _) := get_statistics' lines in
  (forall d, is_Some (annoy_counts !! d) -> is_Some (total_counts !! d))
  /\ (forall d v, total_counts !! d = Some v -> v <> 0 /\ 1 <= v)
  /\ (forall d v, annoy_counts !! d = Some v -> v <> 0 /\ 1 <= v).
Proof.
  unfold get_statistics, result_of.
  assert (Hok : day_counts_ok (run_loop' initial_state lines)).
  { apply (run_loop_invariant day_counts_ok).
    - intros st st' [Ht Ha _ _|name qq i ->] Hst.
      + unfold day_counts_ok. rewrite Ht, Ha. exact Hst.
      + apply day_counts_ok_tally. exact Hst.
    - split; [reflexivity|]. split; apply counts_positive_empty. }
  destruct Hok as (Hsub & Ht & Ha).
  split; [|split].
  - intros d Hd. apply elem_of_dom. apply Hsub. apply elem_of_dom. exact Hd.
  - intros d v Hv. specialize (Ht d v Hv). lia.
  - intros d v Hv. specialize (Ha d v Hv). lia.
Qed.

(** A header line [h] and the body line [b] after it: the loop reads the
    fields from [h], asks [msg_filter], and tallies the record. *)
Lemma run_loop_record (st : loop_state) (h b d : pystr) :
  re_search_date isdecimal (strip h) = Some d ->
  re_search_date isdecimal (strip b) = None ->
  run_loop' st [h; b] =
  let name_qq := name_qq_of (strip h) in
  if passes4 msg_filter d (name_of name_qq) (qq_of name_qq) (strip b)
  then tally' (after_header st (strip h) d) (name_of name_qq) (qq_of name_qq) (strip b)
  else after_rejected (after_header st (strip h) d).
Proof.
  intros Hh Hb. unfold run_loop. cbn [fold_left].
  unfold loop_body at 2. rewrite Hh.
  unfold loop_body. rewrite Hb. cbn [prev_is_info_line].
  reflexivity.
Qed.

Lemma lookup_incr (m : gmap pystr Z) (k : pystr) :
  incr m k !! k = Some (count_of m k + 1).
Proof. rewrite incr_insert. apply lookup_insert_eq. Qed.

Lemma count_of_incr (m : gmap pystr Z) (k : pystr) :
  count_of (incr m k) k = count_of m k + 1.
Proof. unfold count_of at 1. rewrite lookup_incr. reflexivity. Qed.

(** C3.  A record [msg_filter] accepts whose sender id is the reserved
    anonymous id adds one to the total count and one to the anonymous count
    of its date; with [no_annoy_sys_speak_filter] installed, the speak-count
    map and the card-name map stay as they were. *)
Theorem anonymous_record_counted_not_credited (st : loop_state) (h b d : pystr) :
  re_search_date isdecimal (strip h) = Some d ->
  re_search_date isdecimal (strip b) = None ->
  qq_of (name_qq_of (strip h)) = ANONYMOUS_QQ ->
  passes4 msg_filter d (name_of (name_qq_of (strip h))) ANONYMOUS_QQ (strip b) = true ->
  (total_counts (run_loop' st [h; b])
     = <[d := count_of (total_counts st) d + 1]> (total_counts st)
   /\ count_of (total_counts (run_loop' st [h; b])) d
     = count_of (total_counts st) d + 1)
  /\ (annoy_counts (run_loop' st [h; b])
        = <[d := count_of (annoy_counts st) d + 1]> (annoy_counts st)
      /\ count_of (annoy_counts (run_loop' st [h; b])) d
        = count_of (annoy_counts st) d + 1)
  /\ (speak_filter = Some no_annoy_sys_speak_filter ->
      speak_counts (run_loop' st [h; b]) = speak_counts st
      /\ card_names (run_loop' st [h; b]) = card_names st).
Proof.
  intros Hh Hb Hqq Hacc.
  rewrite (run_loop_record st h b d Hh Hb). cbv zeta.
  rewrite Hqq, Hacc.
  rewrite tally_total, tally_annoy, tally_speak, tally_card.
  cbn [after_header total_counts annoy_counts speak_counts card_names prev_date].
  rewrite decide_True by reflexivity.
  rewrite !count_of_incr, <- !incr_insert.
  split; [split; reflexivity|]. split; [split; reflexivity|].
  intros ->. cbn [passes2]. unfold no_annoy_sys_speak_filter.
  rewrite bool_decide_eq_true_2 by reflexivity.
  split; reflexivity.
Qed.

(** C10.  A header line whose name field has neither an opening parenthesis
    nor an opening angle bracket is read without failure: both [rfind]s give
    [-1], the display name and the id are both the name field without its
    last character, and the record goes through [msg_filter] and the tallies
    with that id. *)
Theorem header_without_delimiter_is_processed (st : loop_state) (h b d : pystr) :
  re_search_date isdecimal (strip h) = Some d ->
  re_search_date isdecimal (strip b) = None ->
  LPAREN ∉ name_qq_of (strip h) ->
  LANGLE ∉ name_qq_of (strip h) ->
  rfind LPAREN (name_qq_of (strip h)) = -1
  /\ rfind LANGLE (name_qq_of (strip h)) = -1
  /\ name_of (name_qq_of (strip h)) = removelast (name_qq_of (strip h))
  /\ qq_of (name_qq_of (strip h)) = removelast (name_qq_of (strip h))
  /\ run_loop' st [h; b] =
     if passes4 msg_filter d (removelast (name_qq_of (strip h)))
          (removelast (name_qq_of (strip h))) (strip b)
     then tally' (after_header st (strip h) d) (removelast (name_qq_of (strip h)))
            (removelast (name_qq_of (strip h))) (strip b)
     else after_rejected (after_header st (strip h) d).
Proof.
  intros Hh Hb Hp Ha.
  assert (Hname : name_of (name_qq_of (strip h)) = removelast (name_qq_of (strip h))).
  { unfold name_of. rewrite left_parenthesis_index_absent by assumption.
    apply slice_to_minus_one. }
  assert (Hqq : qq_of (name_qq_of (strip h)) = removelast (name_qq_of (strip h))).
  { unfold qq_of. rewrite left_parenthesis_index_absent by assumption.
    apply slice_zero_to_minus_one. }
  split; [apply rfind_absent; exact Hp|].
  split; [apply rfind_absent; exact Ha|].
  split; [exact Hname|]. split; [exact Hqq|].
  rewrite (run_loop_record st h b d Hh Hb). cbv zeta.
  rewrite Hname, Hqq. reflexivity.
Qed.

End Loop.

(** C2.  The header line [2023-09-15 10:00:00 Alice(111)] followed by the
    body line [hello world], with a [msg_filter] that accepts the record and
    no [speak_filter]: the total count of [2023-09-15] is 1, the speak count
    of [111] is 1 and the card name of [111] is [Alice]. *)
Theorem alice_scenario (isdecimal : char -> bool) (lcut : pystr -> list pystr)
    (msg_filter : option (pystr -> pystr -> pystr -> pystr -> bool))
    (msg_preprocessor : option (pystr -> pystr))
    (word_filter : option (pystr -> bool)) (h b : pystr) :
  (forall c, (48 <= c <= 57)%N -> isdecimal c = true) ->
  strip h = py "2023-09-15 10:00:00 Alice(111)" ->
  strip b = py "hello world" ->
  passes4 msg_filter (py "2023-09-15") (py "Alice") (py "111") (py "hello world") = true ->
  let '(_, total_counts, _, speak_counts, card_names) :=
    get_statistics isdecimal lcut msg_filter msg_preprocessor word_filter None [h; b] in
  total_counts !! py "2023-09-15" = Some 1
  /\ speak_counts !! py "111" = Some 1
  /\ card_names !! py "111" = Some (py "Alice").
Proof.
  intros Hdig Hh Hb Hacc.
  assert (Hdate : re_search_date isdecimal (strip h) = Some (py "2023-09-15")).
  { rewrite Hh. unfold re_search_date. cbn.
    rewrite !Hdig by lia. reflexivity. }
  assert (Hbody : re_search_date isdecimal (strip b) = None).
  { rewrite Hb. unfold re_search_date. cbn.
    repeat (destruct (isdecimal _); [|reflexivity]). reflexivity. }
  unfold get_statistics, result_of.
  rewrite (run_loop_record isdecimal lcut msg_filter msg_preprocessor word_filter None
             initial_state h b _ Hdate Hbody). cbv zeta.
  rewrite Hh, Hb.
  change (name_of (name_qq_of (py "2023-09-15 10:00:00 Alice(111)"))) with (py "Alice").
  change (qq_of (name_qq_of (py "2023-09-15 10:00:00 Alice(111)"))) with (py "111").
  rewrite Hacc.
  rewrite tally_total. unfold tally. cbn [speak_counts card_names passes2].
  split; [apply lookup_incr|].
  split; [apply lookup_incr|].
  apply lookup_insert_eq.
Qed.

Lemma ascii_isdecimal_digits (c : char) :
  (48 <= c <= 57)%N -> ascii_isdecimal c = true.
Proof.
  intros [Hlo Hhi]. unfold ascii_isdecimal.
  apply andb_true_intro. split; apply N.leb_le; assumption.
Defined.

Lemma alice_scenario_witness :
  let '(_, total_counts, _, speak_counts, card_names) :=
    get_statistics ascii_isdecimal space_lcut
      (Some (fun _ _ qq msg => qq_msg_filter_common qq msg))
      (Some qq_msg_preprocessor) None None alice_transcript in
  total_counts !! py "2023-09-15" = Some 1
  /\ speak_counts !! py "111" = Some 1
  /\ card_names !! py "111" = Some (py "Alice").
Proof.
  apply (alice_scenario ascii_isdecimal space_lcut
           (Some (fun _ _ qq msg => qq_msg_filter_common qq msg))
           (Some qq_msg_preprocessor) None
           (py "2023-09-15 10:00:00 Alice(111)" ++ [LF]) (py "hello world" ++ [LF])).
  - exact ascii_isdecimal_digits.
  - vm_compute. reflexivity.
  - vm_compute. reflexivity.
  - vm_compute. reflexivity.
Defined.

Lemma anonymous_record_counted_not_credited_witness :
  let st' := run_loop ascii_isdecimal space_lcut None None None
               (Some no_annoy_sys_speak_filter) initial_state anonymous_transcript in
  count_of (total_counts st') (py "2023-09-15") = 1
  /\ count_of (annoy_counts st') (py "2023-09-15") = 1
  /\ speak_counts st' = ∅
  /\ card_names st' = ∅.
Proof.
  destruct (anonymous_record_counted_not_credited ascii_isdecimal space_lcut
              None None None (Some no_annoy_sys_speak_filter) initial_state
              (py "2023-09-15 10:00:00 Ghost(80000000)" ++ [LF]) (py "boo" ++ [LF])
              (py "2023-09-15"))
    as ((_ & Ht) & (_ & Ha) & Hs).
  - vm_compute. reflexivity.
  - vm_compute. reflexivity.
  - vm_compute. reflexivity.
  - reflexivity.
  - destruct (Hs eq_refl) as [Hsc Hcn].
    split; [exact Ht|]. split; [exact Ha|]. split; [exact Hsc|exact Hcn].
Defined.

Lemma header_without_delimiter_is_processed_witness :
  let h := py "2023-09-15 10:00:00 Bob" ++ [LF] in
  let b := py "hi" ++ [LF] in
  rfind LPAREN (py "Bob") = -1
  /\ rfind LANGLE (py "Bob") = -1
  /\ name_of (py "Bob") = py "Bo"
  /\ qq_of (py "Bob") = py "Bo"
  /\ run_loop ascii_isdecimal space_lcut None None None None initial_state [h; b]
     = tally space_lcut None None None
         (after_header initial_state (py "2023-09-15 10:00:00 Bob") (py "2023-09-15"))
         (py "Bo") (py "Bo") (py "hi").
Proof.
  apply (header_without_delimiter_is_processed ascii_isdecimal space_lcut
           None None None None initial_state
           (py "2023-09-15 10:00:00 Bob" ++ [LF]) (py "hi" ++ [LF]) (py "2023-09-15")).
  - vm_compute. reflexivity.
  - vm_compute. reflexivity.
  - apply (bool_decide_unpack _). vm_compute. exact I.
  - apply (bool_decide_unpack _). vm_compute. exact I.
Defined.

(** ** Determinism *)

Section Determinism.

Variables isdecimal isdecimal' : char -> bool.
Variables lcut lcut' : pystr -> list pystr.
Variables msg_filter msg_filter' : option (pystr -> pystr -> pystr -> pystr -> bool).
Variables msg_preprocessor msg_preprocessor' : option (pystr -> pystr).
Variables word_filter word_filter' : option (pystr -> bool).
Variables speak_filter speak_filter' : option (pystr -> pystr -> bool).

Hypothesis same_digits : forall c, isdecimal c = isdecimal' c.
Hypothesis same_tokenizer : forall s, lcut s = lcut' s.
Hypothesis same_msg_filter :
  forall d name qq i, passes4 msg_filter d name qq i = passes4 msg_filter' d name qq i.
Hypothesis same_msg_preprocessor :
  forall i, preprocess msg_preprocessor i = preprocess msg_preprocessor' i.
Hypothesis same_word_filter :
  forall w, passes1 word_filter w = passes1 word_filter' w.
Hypothesis same_speak_filter :
  forall name qq, passes2 speak_filter name qq = passes2 speak_filter' name qq.

Lemma re_search_date_same (i : pystr) :
  re_search_date isdecimal i = re_search_date isdecimal' i.
Proof.
  unfold re_search_date.
  do 10 (destruct i as [|? i]; [reflexivity|]).
  rewrite !same_digits. reflexivity.
Qed.

Lemma tally_same (st : loop_state) (name qq i : pystr) :
  tally lcut msg_preprocessor word_filter speak_filter st name qq i
  = tally lcut' msg_preprocessor' word_filter' speak_filter' st name qq i.
Proof.
  unfold tally.
  rewrite same_speak_filter, same_msg_preprocessor, same_tokenizer.
  rewrite (List.filter_ext _ _ same_word_filter). reflexivity.
Qed.

Lemma loop_body_same (st : loop_state) (line : pystr) :
  loop_body isdecimal lcut msg_filter msg_preprocessor word_filter speak_filter st line
  = loop_body isdecimal' lcut' msg_filter' msg_preprocessor' word_filter' speak_filter'
      st line.
Proof.
  unfold loop_body, body_line.
  rewrite re_search_date_same, same_msg_filter.
  destruct (re_search_date isdecimal' (strip line)); [reflexivity|].
  destruct (prev_is_info_line st); [|reflexivity].
  destruct (passes4 msg_filter' _ _ _ _); [|reflexivity].
  apply tally_same.
Qed.

Lemma run_loop_same (lines : list pystr) (st : loop_state) :
  run_loop isdecimal lcut msg_filter msg_preprocessor word_filter speak_filter st lines
  = run_loop isdecimal' lcut' msg_filter' msg_preprocessor' word_filter' speak_filter'
      st lines.
Proof.
  revert st. induction lines as [|line lines IH]; intros st; [reflexivity|].
  unfold run_loop in *. cbn [fold_left]. rewrite loop_body_same. apply IH.
Qed.

End Determinism.

(** ** The preprocessor *)

(** C7.  [qq_msg_preprocessor] removes more than the mention: its pattern
    runs to the last space of the line.  On [@Bob hello world] it leaves
    [world], where dropping the mention leaves [hello world]; on
    [@Bob hello] both leave [hello]. *)
Theorem qq_msg_preprocessor_eats_text_after_mention :
  qq_msg_preprocessor (py "@Bob hello world") = py "world"
  /\ strip_mentions (py "@Bob hello world") = py "hello world"
  /\ qq_msg_preprocessor (py "@Bob hello world")
     <> strip_mentions (py "@Bob hello world")
  /\ qq_msg_preprocessor (py "@Bob hello") = py "hello"
  /\ strip_mentions (py "@Bob hello") = py "hello".
Proof.
  split; [vm_compute; reflexivity|].
  split; [vm_compute; reflexivity|].
  split; [vm_compute; discriminate|].
  split; vm_compute; reflexivity.
Qed.

(** ** The word filter *)

Lemma elem_of_load_stop_words_from (lines : list pystr) (acc : gset pystr) (word : pystr) :
  word ∈ fold_left (fun stop_words i => {[ strip i ]} ∪ stop_words) lines acc
  <-> word ∈ acc \/ exists i, i ∈ lines /\ word = strip i.
Proof.
  revert acc. induction lines as [|l lines IH]; intros acc; cbn [fold_left].
  - split; [intros H; left; exact H|].
    intros [H|(i & Hi & _)]; [exact H|]. apply elem_of_nil in Hi. contradiction.
  - rewrite IH. rewrite elem_of_union, elem_of_singleton. split.
    + intros [[->|H]|(i & Hi & ->)].
      * right. exists l. split; [apply list_elem_of_here|reflexivity].
      * left. exact H.
      * right. exists i. split; [apply list_elem_of_further; exact Hi|reflexivity].
    + intros [H|(i & Hi & ->)].
      * left. right. exact H.
      * apply elem_of_cons in Hi as [->|Hi].
        -- left. left. reflexivity.
        -- right. exists i. split; [exact Hi|reflexivity].
Qed.

(** The loaded stop words are the stripped lines of the file. *)
Lemma elem_of_load_stop_words (lines : list pystr) (word : pystr) :
  word ∈ load_stop_words lines <-> exists i, i ∈ lines /\ word = strip i.
Proof.
  unfold load_stop_words. rewrite elem_of_load_stop_words_from. split.
  - intros [H|H]; [|exact H]. apply not_elem_of_empty in H. contradiction.
  - intros H. right. exact H.
Qed.

(** C8 as stated fails for the empty token: it has not length 1 and is not
    a stop word, and [qq_word_filter] rejects it. *)
Lemma qq_word_filter_rejects_empty_token :
  let stop_words := load_stop_words [py "the" ++ [LF]; py "of" ++ [LF]] in
  len [] <> 1
  /\ (([] : pystr) ∉ stop_words)
  /\ qq_word_filter stop_words [] <> true.
Proof.
  split; [discriminate|].
  split; [apply (bool_decide_unpack _); vm_compute; exact I|].
  vm_compute. discriminate.
Qed.

(** C8, amended.  [qq_word_filter] returns false for every token of length
    1, for the empty token and for every token of the loaded stop-word set,
    and true for every other token: it accepts exactly the tokens longer
    than one character that are not stop words. *)
Theorem qq_word_filter_accepts_long_non_stop_words
    (stop_lines : list pystr) (word : pystr) :
  (qq_word_filter (load_stop_words stop_lines) word = true
   <-> 1 < len word /\ word ∉ load_stop_words stop_lines)
  /\ qq_word_filter (load_stop_words stop_lines) word
     = (if decide (len word = 1 \/ word = [] \/ word ∈ load_stop_words stop_lines)
        then false else true)
  /\ (word ∈ load_stop_words stop_lines
      <-> exists i, i ∈ stop_lines /\ word = strip i).
Proof.
  cut ((qq_word_filter (load_stop_words stop_lines) word = true
        <-> 1 < len word /\ word ∉ load_stop_words stop_lines)
       /\ qq_word_filter (load_stop_words stop_lines) word
          = (if decide (len word = 1 \/ word = []
                        \/ word ∈ load_stop_words stop_lines)
             then false else true)).
  { intros [Hiff Heq]. split; [exact Hiff|]. split; [exact Heq|].
    apply elem_of_load_stop_words. }
  unfold qq_word_filter.
  assert (Hlen : word = [] <-> len word = 0).
  { unfold len. destruct word; simpl; split; intros H; try reflexivity; try lia.
    discriminate. }
  pose proof (len_nonneg word) as Hnn.
  split.
  - rewrite andb_true_iff, negb_true_iff, bool_decide_eq_false, Z.ltb_lt.
    reflexivity.
  - destruct (decide _) as [Hrej|Hacc].
    + apply andb_false_iff.
      destruct Hrej as [H|[H|H]].
      * left. apply Z.ltb_ge. lia.
      * left. apply Z.ltb_ge. apply Hlen in H. lia.
      * right. apply negb_false_iff, bool_decide_eq_true. exact H.
    + apply andb_true_iff. split.
      * apply Z.ltb_lt.
        destruct (decide (len word = 1)) as [H1|H1]; [exfalso; apply Hacc; left; exact H1|].
        destruct (decide (len word = 0)) as [H0|H0]; [|lia].
        exfalso. apply Hacc. right. left. apply Hlen. exact H0.
      * apply negb_true_iff, bool_decide_eq_false. intros H.
        apply Hacc. right. right. exact H.
Qed.

(** ** Calls in a store *)

Lemma mutate_lookup_ne (r r' : positive) (f : object -> option object) (s : store) :
  r' <> r -> mutate r f s !! r' = s !! r'.
Proof.
  intros Hne. unfold mutate.
  destruct (s !! r) as [o|]; [|reflexivity].
  destruct (f o); [|reflexivity].
  apply lookup_insert_ne. congruence.
Qed.

Lemma mutate_lookup_eq (r : positive) (f : object -> option object) (s : store)
    (o o' : object) :
  s !! r = Some o -> f o = Some o' -> mutate r f s !! r = Some o'.
Proof.
  intros Hs Hf. unfold mutate. rewrite Hs, Hf. apply lookup_insert_eq.
Qed.

Lemma extend_lookup_ne (r r' : positive) (ws : list pystr) (s : store) :
  r' <> r -> extend r ws s !! r' = s !! r'.
Proof. apply mutate_lookup_ne. Qed.

Lemma increment_lookup_ne (r r' : positive) (k : pystr) (s : store) :
  r' <> r -> increment r k s !! r' = s !! r'.
Proof. apply mutate_lookup_ne. Qed.

Lemma set_item_lookup_ne (r r' : positive) (k v : pystr) (s : store) :
  r' <> r -> set_item r k v s !! r' = s !! r'.
Proof. apply mutate_lookup_ne. Qed.

Lemma extend_lookup_eq (r : positive) (ws l : list pystr) (s : store) :
  s !! r = Some (ListObj l) -> extend r ws s !! r = Some (ListObj (l ++ ws)).
Proof. intros H. eapply mutate_lookup_eq; [exact H|reflexivity]. Qed.

Lemma increment_lookup_eq (r : positive) (k : pystr) (d : gmap pystr Z) (s : store) :
  s !! r = Some (CountsObj d) -> increment r k s !! r = Some (CountsObj (incr d k)).
Proof. intros H. eapply mutate_lookup_eq; [exact H|reflexivity]. Qed.

Lemma set_item_lookup_eq (r : positive) (k v : pystr) (d : gmap pystr pystr) (s : store) :
  s !! r = Some (NamesObj d) ->
  set_item r k v s !! r = Some (NamesObj (<[k := v]> d)).
Proof. intros H. eapply mutate_lookup_eq; [exact H|reflexivity]. Qed.

(** Reads a reference through the mutations of one tally. *)
Ltac store_lookup :=
  repeat first
    [ rewrite extend_lookup_ne by congruence
    | rewrite increment_lookup_ne by congruence
    | rewrite set_item_lookup_ne by congruence
    | apply extend_lookup_eq
    | apply increment_lookup_eq
    | apply set_item_lookup_eq ].

Section Calls.

Variable isdecimal : char -> bool.
Variable lcut : pystr -> list pystr.
Variable msg_filter : option (pystr -> pystr -> pystr -> pystr -> bool).
Variable msg_preprocessor : option (pystr -> pystr).
Variable word_filter : option (pystr -> bool).
Variable speak_filter : option (pystr -> pystr -> bool).
Variable R : references.

Hypothesis distinct : NoDup (references_of R).

Local Abbreviation tally_in' :=
  (tally_in lcut msg_preprocessor word_filter speak_filter R).
Local Abbreviation loop_body_in' :=
  (loop_body_in isdecimal lcut msg_filter msg_preprocessor word_filter speak_filter R).

Lemma references_distinct :
  (words_ref R <> total_ref R /\ words_ref R <> annoy_ref R
   /\ words_ref R <> speak_ref R /\ words_ref R <> names_ref R)
  /\ (total_ref R <> annoy_ref R /\ total_ref R <> speak_ref R
      /\ total_ref R <> names_ref R)
  /\ (annoy_ref R <> speak_ref R /\ annoy_ref R <> names_ref R)
  /\ speak_ref R <> names_ref R.
Proof.
  pose proof distinct as H. unfold references_of in H.
  repeat (apply NoDup_cons in H as [? H]).
  repeat match goal with
         | Hn : _ ∉ _ :: _ |- _ => apply not_elem_of_cons in Hn as [? ?]
         end.
  repeat split; assumption.
Qed.

Lemma tally_in_frame (d name qq i : pystr) (s : store) (r : positive) :
  r ∉ references_of R -> tally_in' d name qq i s !! r = s !! r.
Proof.
  intros Hr. unfold references_of in Hr.
  repeat (apply not_elem_of_cons in Hr as [? Hr]).
  unfold tally_in.
  destruct (passes2 speak_filter name qq);
    destruct (decide (qq = ANONYMOUS_QQ));
    store_lookup; reflexivity.
Qed.

Lemma tally_in_holds (st : loop_state) (name qq i : pystr) (s : store) :
  holds R s st ->
  holds R (tally_in' (prev_date st) name qq i s)
    (tally lcut msg_preprocessor word_filter speak_filter st name qq i).
Proof.
  intros (Hw & Ht & Ha & Hs & Hn).
  destruct references_distinct
    as ((Hwt & Hwa & Hws & Hwn) & (Hta & Hts & Htn) & (Has & Han) & Hsn).
  unfold holds, tally_in, tally.
  cbn [words total_counts annoy_counts speak_counts card_names].
  destruct (passes2 speak_filter name qq);
    destruct (decide (qq = ANONYMOUS_QQ));
    repeat split; store_lookup; assumption.
Qed.

Lemma loop_body_in_frame (c : locals * store) (line : pystr) (r : positive) :
  r ∉ references_of R -> (loop_body_in' c line).2 !! r = c.2 !! r.
Proof.
  intros Hr. destruct c as [v s]. unfold loop_body_in.
  destruct (re_search_date isdecimal (strip line)); [reflexivity|].
  destruct (is_info_line v); [|reflexivity].
  destruct (passes4 msg_filter _ _ _ _); [|reflexivity].
  cbn [snd]. apply tally_in_frame. exact Hr.
Qed.

Lemma loop_body_in_agrees (c : locals * store) (st : loop_state) (line : pystr) :
  agrees R c st ->
  agrees R (loop_body_in' c line)
    (loop_body isdecimal lcut msg_filter msg_preprocessor word_filter speak_filter
       st line).
Proof.
  destruct c as [v s]. intros (H1 & H2 & H3 & Hh). cbn [fst snd] in *.
  unfold loop_body_in, loop_body, body_line.
  rewrite H1, H2, H3.
  destruct (re_search_date isdecimal (strip line)).
  - split; [reflexivity|]. split; [reflexivity|]. split; [reflexivity|]. exact Hh.
  - destruct (prev_is_info_line st).
    + destruct (passes4 msg_filter _ _ _ _).
      * split; [reflexivity|]. split; [reflexivity|]. split; [reflexivity|].
        cbn [snd]. apply tally_in_holds. exact Hh.
      * split; [reflexivity|]. split; [reflexivity|]. split; [reflexivity|]. exact Hh.
    + split; [reflexivity|]. split; [reflexivity|]. split; [reflexivity|]. exact Hh.
Qed.

Lemma run_in_agrees (lines : list pystr) (c : locals * store) (st : loop_state) :
  agrees R c st ->
  agrees R (fold_left loop_body_in' lines c)
    (run_loop isdecimal lcut msg_filter msg_preprocessor word_filter speak_filter
       st lines).
Proof.
  revert c st. induction lines as [|line lines IH]; intros c st Hc; [exact Hc|].
  cbn [fold_left]. unfold run_loop. cbn [fold_left].
  apply IH. apply loop_body_in_agrees. exact Hc.
Qed.

Lemma run_in_frame (lines : list pystr) (c : locals * store) (r : positive) :
  r ∉ references_of R -> (fold_left loop_body_in' lines c).2 !! r = c.2 !! r.
Proof.
  intros Hr. revert c. induction lines as [|line lines IH]; intros c; [reflexivity|].
  cbn [fold_left]. rewrite IH. apply loop_body_in_frame. exact Hr.
Qed.

Lemma holds_read (s : store) (st : loop_state) :
  holds R s st -> read R s = Some (result_of st).
Proof.
  intros (Hw & Ht & Ha & Hs & Hn). unfold read.
  rewrite Hw, Ht, Ha, Hs, Hn. reflexivity.
Qed.

End Calls.

Lemma holds_dom (R : references) (s : store) (st : loop_state) (r : positive) :
  holds R s st -> r ∈ references_of R -> r ∈ dom s.
Proof.
  intros (Hw & Ht & Ha & Hs & Hn) Hr. unfold references_of in Hr.
  apply elem_of_dom.
  repeat (apply elem_of_cons in Hr as [->|Hr]; [eauto|]).
  apply elem_of_nil in Hr. contradiction.
Qed.

(** A call creates its five objects at references the store did not hold,
    leaves in them what [get_statistics] returns, and leaves every object
    the store held as it was. *)
Lemma call_get_statistics_spec (isdecimal : char -> bool) (lcut : pystr -> list pystr)
    (msg_filter : option (pystr -> pystr -> pystr -> pystr -> bool))
    (msg_preprocessor : option (pystr -> pystr))
    (word_filter : option (pystr -> bool))
    (speak_filter : option (pystr -> pystr -> bool))
    (lines : list pystr) (s : store) :
  let c := call_get_statistics isdecimal lcut msg_filter msg_preprocessor word_filter
             speak_filter lines s in
  read c.1 c.2
  = Some (get_statistics isdecimal lcut msg_filter msg_preprocessor word_filter
            speak_filter lines)
  /\ (forall r, r ∈ references_of c.1 -> (r ∉ dom s) /\ r ∈ dom c.2)
  /\ (forall r, r ∈ dom s -> c.2 !! r = s !! r).
Proof.
  unfold call_get_statistics, new. cbv beta iota zeta.
  set (r1 := fresh (dom s)). set (s1 := <[r1 := ListObj []]> s).
  set (r2 := fresh (dom s1)). set (s2 := <[r2 := CountsObj ∅]> s1).
  set (r3 := fresh (dom s2)). set (s3 := <[r3 := CountsObj ∅]> s2).
  set (r4 := fresh (dom s3)). set (s4 := <[r4 := CountsObj ∅]> s3).
  set (r5 := fresh (dom s4)). set (s5 := <[r5 := NamesObj ∅]> s4).
  set (R := References r1 r2 r3 r4 r5).
  cbn [fst snd].
  assert (H1 : r1 ∉ dom s) by apply is_fresh.
  assert (H2 : r2 ∉ dom s1) by apply is_fresh.
  assert (H3 : r3 ∉ dom s2) by apply is_fresh.
  assert (H4 : r4 ∉ dom s3) by apply is_fresh.
  assert (H5 : r5 ∉ dom s4) by apply is_fresh.
  assert (D1 : dom s1 = {[r1]} ∪ dom s) by apply dom_insert_L.
  assert (D2 : dom s2 = {[r2]} ∪ dom s1) by apply dom_insert_L.
  assert (D3 : dom s3 = {[r3]} ∪ dom s2) by apply dom_insert_L.
  assert (D4 : dom s4 = {[r4]} ∪ dom s3) by apply dom_insert_L.
  rewrite D4, D3, D2, D1 in H5. rewrite D3, D2, D1 in H4.
  rewrite D2, D1 in H3. rewrite D1 in H2.
  clear D1 D2 D3 D4.
  repeat match goal with
         | H : _ ∉ {[ _ ]} ∪ _ |- _ =>
             let Hne := fresh "Hne" in
             apply not_elem_of_union in H as [Hne H];
             apply not_elem_of_singleton in Hne
         end.
  assert (Hfresh : forall r, r ∈ references_of R -> r ∉ dom s).
  { intros r Hr. unfold references_of, R in Hr. cbn in Hr.
    repeat (apply elem_of_cons in Hr as [->|Hr]; [assumption|]).
    apply elem_of_nil in Hr. contradiction. }
  assert (Hdistinct : NoDup (references_of R)).
  { unfold references_of, R. cbn.
    repeat (apply NoDup_cons; split); try apply NoDup_nil_2;
      repeat (apply not_elem_of_cons; split); try apply not_elem_of_nil;
      congruence. }
  assert (Hinit : agrees R (Locals false [] [], s5) initial_state).
  { split; [reflexivity|]. split; [reflexivity|]. split; [reflexivity|].
    unfold holds, initial_state, R, s5, s4, s3, s2, s1.
    cbn [snd words_ref total_ref annoy_ref speak_ref names_ref
         words total_counts annoy_counts speak_counts card_names].
    repeat split;
      repeat first [ apply lookup_insert_eq | rewrite lookup_insert_ne by assumption ]. }
  pose proof (run_in_agrees isdecimal lcut msg_filter msg_preprocessor word_filter
                speak_filter R Hdistinct lines _ _ Hinit) as (_ & _ & _ & Hholds).
  split; [|split].
  - unfold get_statistics. apply holds_read. exact Hholds.
  - intros r Hr. split; [apply Hfresh; exact Hr|].
    eapply holds_dom; [exact Hholds|exact Hr].
  - intros r Hr.
    rewrite run_in_frame by (intros Hin; apply (Hfresh r Hin Hr)).
    cbn [snd]. unfold s5, s4, s3, s2, s1.
    rewrite !lookup_insert_ne by (intros ->; contradiction). reflexivity.
Qed.

Lemma read_frame (R : references) (s s' : store) :
  (forall r, r ∈ references_of R -> s' !! r = s !! r) -> read R s' = read R s.
Proof.
  intros H. unfold read.
  rewrite !H by (unfold references_of; repeat first
                   [ apply list_elem_of_here | apply list_elem_of_further ]).
  reflexivity.
Qed.

(** C9.  Two runs of [get_statistics], one after the other in the same
    interpreter, on the same lines and with filters, a preprocessor and a
    tokenizer that behave the same in both: the second run returns a word
    list and four maps equal to those of the first, which are what
    [get_statistics] computes from its arguments alone; and the second run
    leaves the objects the first returned as they were.  Whatever the store
    held before a run is neither read nor changed by it. *)
Theorem get_statistics_two_runs_agree
    (isdecimal isdecimal' : char -> bool) (lcut lcut' : pystr -> list pystr)
    (msg_filter msg_filter' : option (pystr -> pystr -> pystr -> pystr -> bool))
    (msg_preprocessor msg_preprocessor' : option (pystr -> pystr))
    (word_filter word_filter' : option (pystr -> bool))
    (speak_filter speak_filter' : option (pystr -> pystr -> bool))
    (lines : list pystr) (s : store) :
  (forall c, isdecimal c = isdecimal' c) ->
  (forall i, lcut i = lcut' i) ->
  (forall d name qq i,
      passes4 msg_filter d name qq i = passes4 msg_filter' d name qq i) ->
  (forall i, preprocess msg_preprocessor i = preprocess msg_preprocessor' i) ->
  (forall w, passes1 word_filter w = passes1 word_filter' w) ->
  (forall name qq, passes2 speak_filter name qq = passes2 speak_filter' name qq) ->
  let first_run :=
    call_get_statistics isdecimal lcut msg_filter msg_preprocessor word_filter
      speak_filter lines s in
  let second_run :=
    call_get_statistics isdecimal' lcut' msg_filter' msg_preprocessor' word_filter'
      speak_filter' lines first_run.2 in
  read first_run.1 first_run.2
  = Some (get_statistics isdecimal lcut msg_filter msg_preprocessor word_filter
            speak_filter lines)
  /\ read second_run.1 second_run.2 = read first_run.1 first_run.2
  /\ read first_run.1 second_run.2 = read first_run.1 first_run.2
  /\ get_statistics isdecimal' lcut' msg_filter' msg_preprocessor' word_filter'
       speak_filter' lines
     = get_statistics isdecimal lcut msg_filter msg_preprocessor word_filter
         speak_filter lines.
Proof.
  intros Hd Ht Hm Hp Hw Hs first_run second_run.
  destruct (call_get_statistics_spec isdecimal lcut msg_filter msg_preprocessor
              word_filter speak_filter lines s) as (Hread1 & Hnew1 & _).
  destruct (call_get_statistics_spec isdecimal' lcut' msg_filter' msg_preprocessor'
              word_filter' speak_filter' lines first_run.2) as (Hread2 & _ & Hold2).
  fold first_run in Hread1, Hnew1. fold second_run in Hread2, Hold2.
  assert (Hsame :
    get_statistics isdecimal' lcut' msg_filter' msg_preprocessor' word_filter'
      speak_filter' lines
    = get_statistics isdecimal lcut msg_filter msg_preprocessor word_filter
        speak_filter lines).
  { unfold get_statistics. f_equal. symmetry. apply run_loop_same; assumption. }
  split; [exact Hread1|].
  split; [rewrite Hread2, Hread1, Hsame; reflexivity|].
  split; [|exact Hsame].
  apply read_frame. intros r Hr. apply Hold2. apply Hnew1. exact Hr.
Qed.

Lemma get_statistics_two_runs_agree_witness :
  let first_run :=
    call_get_statistics ascii_isdecimal space_lcut None None None None
      alice_transcript ∅ in
  let second_run :=
    call_get_statistics ascii_isdecimal space_lcut (Some (fun _ _ _ _ => true))
      (Some (fun i => i)) (Some (fun _ => true)) (Some (fun _ _ => true))
      alice_transcript first_run.2 in
  read first_run.1 first_run.2
  = Some (get_statistics ascii_isdecimal space_lcut None None None None
            alice_transcript)
  /\ read second_run.1 second_run.2 = read first_run.1 first_run.2
  /\ read first_run.1 second_run.2 = read first_run.1 first_run.2
  /\ get_statistics ascii_isdecimal space_lcut (Some (fun _ _ _ _ => true))
       (Some (fun i => i)) (Some (fun _ => true)) (Some (fun _ _ => true))
       alice_transcript
     = get_statistics ascii_isdecimal space_lcut None None None None
         alice_transcript.
Proof.
  apply (get_statistics_two_runs_agree ascii_isdecimal ascii_isdecimal
           space_lcut space_lcut None (Some (fun _ _ _ _ => true))
           None (Some (fun i => i)) None (Some (fun _ => true))
           None (Some (fun _ _ => true)) alice_transcript ∅);
    intros; reflexivity.
Defined.

(** ** The results, record by record *)

Lemma count_of_incr_at (m : gmap pystr Z) (k d : pystr) :
  count_of (incr m k) d = count_of m d + (if decide (k = d) then 1 else 0).
Proof.
  destruct (decide (k = d)) as [->|Hne].
  - apply count_of_incr.
  - unfold count_of. rewrite incr_insert, lookup_insert_ne by exact Hne. lia.
Qed.

Section Fold.

Variable isdecimal : char -> bool.
Variable lcut : pystr -> list pystr.
Variable msg_filter : option (pystr -> pystr -> pystr -> pystr -> bool).
Variable msg_preprocessor : option (pystr -> pystr).
Variable word_filter : option (pystr -> bool).
Variable speak_filter : option (pystr -> pystr -> bool).

Local Abbreviation tally_record' :=
  (tally_record lcut msg_preprocessor word_filter speak_filter).
Local Abbreviation run_loop' :=
  (run_loop isdecimal lcut msg_filter msg_preprocessor word_filter speak_filter).
Local Abbreviation get_statistics' :=
  (get_statistics isdecimal lcut msg_filter msg_preprocessor word_filter speak_filter).

Lemma result_of_tally (st : loop_state) (name qq i : pystr) :
  result_of (tally lcut msg_preprocessor word_filter speak_filter st name qq i)
  = tally_record' (result_of st) (Record_ (prev_date st) name qq i).
Proof. reflexivity. Qed.

(** The loop tallies the accepted records still to come, in order, and does
    nothing else to the results. *)
Lemma run_loop_fold (lines : list pystr) (st : loop_state) :
  result_of (run_loop' st lines)
  = fold_left tally_record'
      (List.filter (accepted msg_filter) (pending isdecimal st lines)) (result_of st).
Proof.
  revert st. induction lines as [|l lines IH]; intros st; [reflexivity|].
  change (run_loop' st (l :: lines)) with
    (run_loop' (loop_body isdecimal lcut msg_filter msg_preprocessor word_filter
                  speak_filter st l) lines).
  rewrite IH. clear IH.
  unfold pending at 2. unfold loop_body.
  destruct (re_search_date isdecimal (strip l)) as [d|] eqn:El.
  - replace (if prev_is_info_line st then [] else []) with (@nil record)
      by (destruct (prev_is_info_line st); reflexivity).
    cbn [app].
    erewrite (records_cons_header isdecimal _ l d lines El); reflexivity.
  - rewrite (records_cons_other isdecimal l lines El).
    destruct (prev_is_info_line st) eqn:Ep.
    + unfold body_line. cbn [app]. rewrite filter_accepted_cons.
      destruct (passes4 msg_filter _ _ _ _) eqn:Ef.
      * rewrite result_of_tally. cbn [fold_left].
        rewrite !pending_idle by reflexivity. reflexivity.
      * rewrite !pending_idle by reflexivity. reflexivity.
    + cbn [app]. rewrite !pending_idle by reflexivity. reflexivity.
Qed.

Lemma get_statistics_fold (lines : list pystr) :
  get_statistics' lines
  = fold_left tally_record' (accepted_records isdecimal msg_filter lines)
      ([], ∅, ∅, ∅, ∅).
Proof.
  unfold get_statistics. rewrite run_loop_fold, pending_initial. reflexivity.
Qed.

Lemma fold_tally_words (rs : list record) (acc : statistics) :
  (fold_left tally_record' rs acc).1.1.1.1
  = acc.1.1.1.1 ++ flat_map (tokens_of lcut msg_preprocessor word_filter) rs.
Proof.
  revert acc. induction rs as [|r rs IH]; intros acc.
  - cbn. rewrite app_nil_r. reflexivity.
  - cbn [fold_left flat_map]. rewrite IH.
    destruct acc as [[[[w t] a] s] c]. cbn [tally_record fst].
    rewrite <- app_assoc. reflexivity.
Qed.

Lemma fold_tally_total (rs : list record) (acc : statistics) (d : pystr) :
  count_of (fold_left tally_record' rs acc).1.1.1.2 d
  = count_of acc.1.1.1.2 d
    + count_records (fun r => bool_decide (date r = d)) rs.
Proof.
  unfold count_records.
  revert acc. induction rs as [|r rs IH]; intros acc.
  - cbn. lia.
  - cbn [fold_left List.filter]. rewrite IH.
    destruct acc as [[[[w t] a] s] c]. cbn [tally_record fst snd].
    rewrite count_of_incr_at.
    destruct (decide (date r = d)) as [E|E].
    + rewrite bool_decide_eq_true_2 by exact E. cbn [length]. lia.
    + rewrite bool_decide_eq_false_2 by exact E. lia.
Qed.

Lemma fold_tally_annoy (rs : list record) (acc : statistics) (d : pystr) :
  count_of (fold_left tally_record' rs acc).1.1.2 d
  = count_of acc.1.1.2 d
    + count_records
        (fun r => bool_decide (date r = d) && bool_decide (senderId r = ANONYMOUS_QQ))
        rs.
Proof.
  unfold count_records.
  revert acc. induction rs as [|r rs IH]; intros acc.
  - cbn. lia.
  - cbn [fold_left List.filter]. rewrite IH.
    destruct acc as [[[[w t] a] s] c]. cbn [tally_record fst snd].
    destruct (decide (senderId r = ANONYMOUS_QQ)) as [Ea|Ea].
    + rewrite (bool_decide_eq_true_2 _ Ea), andb_true_r.
      rewrite count_of_incr_at.
      destruct (decide (date r = d)) as [E|E].
      * rewrite bool_decide_eq_true_2 by exact E. cbn [length]. lia.
      * rewrite bool_decide_eq_false_2 by exact E. lia.
    + rewrite (bool_decide_eq_false_2 _ Ea), andb_false_r. lia.
Qed.

Lemma fold_tally_speak (rs : list record) (acc : statistics) (qq : pystr) :
  count_of (fold_left tally_record' rs acc).1.2 qq
  = count_of acc.1.2 qq + count_records (speaks_as speak_filter qq) rs.
Proof.
  unfold count_records.
  revert acc. induction rs as [|r rs IH]; intros acc.
  - cbn. lia.
  - cbn [fold_left List.filter]. rewrite IH.
    destruct acc as [[[[w t] a] s] c]. cbn [tally_record fst snd].
    change (speaks_as speak_filter qq r)
      with (bool_decide (senderId r = qq)
            && passes2 speak_filter (senderName r) (senderId r)).
    destruct (passes2 speak_filter (senderName r) (senderId r)).
    + rewrite andb_true_r, count_of_incr_at.
      destruct (decide (senderId r = qq)) as [E|E].
      * rewrite bool_decide_eq_true_2 by exact E. cbn [length]. lia.
      * rewrite bool_decide_eq_false_2 by exact E. lia.
    + rewrite andb_false_r. lia.
Qed.

Lemma fold_tally_card (rs : list record) (acc : statistics) (qq : pystr) :
  (fold_left tally_record' rs acc).2 !! qq
  = match last (List.filter (speaks_as speak_filter qq) rs) with
    | Some r => Some (senderName r)
    | None => acc.2 !! qq
    end.
Proof.
  revert acc. induction rs as [|r rs IH]; intros acc; [reflexivity|].
  cbn [fold_left List.filter]. rewrite IH.
  destruct acc as [[[[w t] a] s] c]. cbn [tally_record fst snd].
  change (speaks_as speak_filter qq r)
    with (bool_decide (senderId r = qq)
          && passes2 speak_filter (senderName r) (senderId r)).
  destruct (passes2 speak_filter (senderName r) (senderId r)).
  - rewrite andb_true_r.
    destruct (decide (senderId r = qq)) as [E|E].
    + rewrite bool_decide_eq_true_2 by exact E.
      destruct (List.filter (speaks_as speak_filter qq) rs) as [|r' rs'] eqn:Ers.
      * cbn. rewrite E. rewrite lookup_insert_eq. reflexivity.
      * change (last (r :: r' :: rs')) with (last (r' :: rs')).
        destruct (last (r' :: rs')) eqn:El; [reflexivity|].
        apply last_None in El. discriminate.
    + rewrite bool_decide_eq_false_2 by exact E.
      rewrite lookup_insert_ne by exact E. reflexivity.
  - rewrite andb_false_r. reflexivity.
Qed.

End Fold.

Lemma filter_andb_length (p q : record -> bool) (rs : list record) :
  (length (List.filter (fun r => p r && q r) rs) <= length (List.filter p rs))%nat.
Proof.
  induction rs as [|r rs IH]; [reflexivity|].
  cbn [List.filter]. destruct (p r), (q r); cbn [andb length]; lia.
Qed.

Lemma filter_nonempty_last (p : record -> bool) (rs : list record) :
  is_Some (last (List.filter p rs)) <-> exists r, r ∈ rs /\ p r = true.
Proof.
  split.
  - intros [r Hr]. exists r. apply last_Some_elem_of in Hr.
    apply list_elem_of_In, List.filter_In in Hr as [Hin Hp].
    split; [apply list_elem_of_In; exact Hin|exact Hp].
  - intros (r & Hin & Hp).
    destruct (last (List.filter p rs)) as [r'|] eqn:El; [eauto|].
    apply last_None in El.
    assert (Hr : In r (List.filter p rs)).
    { apply List.filter_In. split; [apply list_elem_of_In; exact Hin|exact Hp]. }
    rewrite El in Hr. contradiction.
Qed.

Section Results.

Variable isdecimal : char -> bool.
Variable lcut : pystr -> list pystr.
Variable msg_filter : option (pystr -> pystr -> pystr -> pystr -> bool).
Variable msg_preprocessor : option (pystr -> pystr).
Variable word_filter : option (pystr -> bool).
Variable speak_filter : option (pystr -> pystr -> bool).

Local Abbreviation loop_body' :=
  (loop_body isdecimal lcut msg_filter msg_preprocessor word_filter speak_filter).
Local Abbreviation run_loop' :=
  (run_loop isdecimal lcut msg_filter msg_preprocessor word_filter speak_filter).
Local Abbreviation get_statistics' :=
  (get_statistics isdecimal lcut msg_filter msg_preprocessor word_filter speak_filter).
Local Abbreviation accepted_records' := (accepted_records isdecimal msg_filter).

(** X1.  Day by day: the total count of a date is the number of accepted
    records of that date, the anonymous count is the number of those sent
    with the reserved anonymous id, and so the anonymous count of a date
    never exceeds its total count.  An absent date counts as zero. *)
Theorem day_counts_count_the_records_of_the_day (lines : list pystr) (d : pystr) :
  let '(_, total_counts, annoy_counts, _, _) := get_statistics' lines in
  count_of total_counts d
  = count_records (fun r => bool_decide (date r = d)) (accepted_records' lines)
  /\ count_of annoy_counts d
     = count_records
         (fun r => bool_decide (date r = d) && bool_decide (senderId r = ANONYMOUS_QQ))
         (accepted_records' lines)
  /\ count_of annoy_counts d <= count_of total_counts d.
Proof.
  rewrite get_statistics_fold.
  pose proof (fold_tally_total lcut msg_preprocessor word_filter speak_filter
                (accepted_records' lines) ([], ∅, ∅, ∅, ∅) d) as Ht.
  pose proof (fold_tally_annoy lcut msg_preprocessor word_filter speak_filter
                (accepted_records' lines) ([], ∅, ∅, ∅, ∅) d) as Ha.
  destruct (fold_left _ _ _) as [[[[w t] a] s] c].
  cbn [fst snd] in Ht, Ha. change (count_of ∅ d) with 0 in Ht, Ha.
  rewrite Ht, Ha. split; [lia|]. split; [lia|].
  unfold count_records.
  pose proof (filter_andb_length (fun r => bool_decide (date r = d))
                (fun r => bool_decide (senderId r = ANONYMOUS_QQ))
                (accepted_records' lines)).
  lia.
Qed.

(** X2.  Sender by sender: the speak count of an id is the number of
    accepted records of that id that pass [speak_filter]; the id is a key of
    the speak-count map exactly when there is such a record; and its card
    name is the display name of the last such record. *)
Theorem speak_counts_count_and_card_names_keep_the_latest
    (lines : list pystr) (qq : pystr) :
  let '(_, _, _, speak_counts, card_names) := get_statistics' lines in
  count_of speak_counts qq
  = count_records (speaks_as speak_filter qq) (accepted_records' lines)
  /\ card_names !! qq
     = senderName <$> last (List.filter (speaks_as speak_filter qq)
                              (accepted_records' lines))
  /\ (is_Some (card_names !! qq)
      <-> exists r, r ∈ accepted_records' lines
                    /\ speaks_as speak_filter qq r = true).
Proof.
  rewrite get_statistics_fold.
  pose proof (fold_tally_speak lcut msg_preprocessor word_filter speak_filter
                (accepted_records' lines) ([], ∅, ∅, ∅, ∅) qq) as Hs.
  pose proof (fold_tally_card lcut msg_preprocessor word_filter speak_filter
                (accepted_records' lines) ([], ∅, ∅, ∅, ∅) qq) as Hc.
  destruct (fold_left _ _ _) as [[[[w t] a] s] c].
  cbn [fst snd] in Hs, Hc. change (count_of ∅ qq) with 0 in Hs.
  rewrite lookup_empty in Hc.
  assert (Hcard : c !! qq
                  = senderName <$> last (List.filter (speaks_as speak_filter qq)
                                           (accepted_records' lines))).
  { rewrite Hc. destruct (last _); reflexivity. }
  split; [lia|]. split; [exact Hcard|].
  rewrite Hcard, fmap_is_Some. apply filter_nonempty_last.
Qed.

(** X3.  The word list is, record after record in the order of the
    transcript, the tokens of the preprocessed message that pass
    [word_filter]; in particular every word of the list passes
    [word_filter]. *)
Theorem words_are_the_filtered_tokens_of_the_accepted_records (lines : list pystr) :
  let '(words, _, _, _, _) := get_statistics' lines in
  words = flat_map (tokens_of lcut msg_preprocessor word_filter)
            (accepted_records' lines)
  /\ Forall (fun w => passes1 word_filter w = true) words.
Proof.
  rewrite get_statistics_fold.
  pose proof (fold_tally_words lcut msg_preprocessor word_filter speak_filter
                (accepted_records' lines) ([], ∅, ∅, ∅, ∅)) as Hw.
  destruct (fold_left _ _ _) as [[[[w t] a] s] c].
  cbn [fst snd app] in Hw. split; [exact Hw|].
  rewrite Hw. apply Forall_forall. intros x Hx.
  apply list_elem_of_In, in_flat_map in Hx as (r & _ & Hx).
  unfold tokens_of in Hx. apply List.filter_In in Hx as [_ Hx]. exact Hx.
Qed.

Lemma loop_body_header (st : loop_state) (h d : pystr) :
  re_search_date isdecimal (strip h) = Some d ->
  loop_body' st h = after_header st (strip h) d.
Proof. intros H. unfold loop_body. rewrite H. reflexivity. Qed.

Lemma loop_body_idle (st : loop_state) (c : pystr) :
  re_search_date isdecimal (strip c) = None ->
  prev_is_info_line st = false ->
  loop_body' st c = st.
Proof.
  intros Hc Hp. unfold loop_body. rewrite Hc, Hp.
  destruct st; cbn in *. subst. reflexivity.
Qed.

Lemma loop_body_not_header (st : loop_state) (b : pystr) :
  re_search_date isdecimal (strip b) = None ->
  prev_is_info_line (loop_body' st b) = false.
Proof.
  intros Hb. unfold loop_body. rewrite Hb.
  destruct (prev_is_info_line st); [|reflexivity].
  unfold body_line. destruct (passes4 msg_filter _ _ _ _); reflexivity.
Qed.

Lemma run_loop_cons (st : loop_state) (l : pystr) (lines : list pystr) :
  run_loop' st (l :: lines) = run_loop' (loop_body' st l) lines.
Proof. reflexivity. Qed.

Lemma run_loop_append (st : loop_state) (l1 l2 : list pystr) :
  run_loop' st (l1 ++ l2) = run_loop' (run_loop' st l1) l2.
Proof. apply fold_left_app. Qed.

(** X4.  A header line that is not followed by a body line leaves no
    trace: when another header line follows it at once, the transcript gives
    the same results as without it; and a header line at the very end of
    the transcript changes none of the results. *)
Theorem header_without_body_leaves_no_trace
    (before after : list pystr) (h1 h2 d1 d2 : pystr) :
  re_search_date isdecimal (strip h1) = Some d1 ->
  re_search_date isdecimal (strip h2) = Some d2 ->
  get_statistics' (before ++ h1 :: h2 :: after) = get_statistics' (before ++ h2 :: after)
  /\ get_statistics' (before ++ [h1]) = get_statistics' before.
Proof.
  intros H1 H2. unfold get_statistics. split.
  - rewrite !run_loop_append, !run_loop_cons.
    rewrite (loop_body_header _ h1 d1 H1), !(loop_body_header _ h2 d2 H2).
    reflexivity.
  - rewrite run_loop_append. cbn [run_loop fold_left].
    rewrite (loop_body_header _ h1 d1 H1). reflexivity.
Qed.

(** X5.  Of consecutive lines that are not headers only the first can be a
    message body: a line that is not a header and comes right after another
    such line, or first in the transcript, is ignored, so the second and
    later lines of a message are neither counted nor tokenized. *)
Theorem continuation_lines_are_ignored
    (before after : list pystr) (b c : pystr) :
  re_search_date isdecimal (strip b) = None ->
  re_search_date isdecimal (strip c) = None ->
  get_statistics' (before ++ b :: c :: after) = get_statistics' (before ++ b :: after)
  /\ get_statistics' (c :: after) = get_statistics' after.
Proof.
  intros Hb Hc. unfold get_statistics. split.
  - rewrite !run_loop_append, !run_loop_cons.
    rewrite (loop_body_idle _ c Hc) by (apply loop_body_not_header; exact Hb).
    reflexivity.
  - rewrite run_loop_cons. rewrite (loop_body_idle _ c Hc) by reflexivity.
    reflexivity.
Qed.

End Results.

Lemma header_without_body_leaves_no_trace_witness :
  get_statistics ascii_isdecimal space_lcut None None None None
    ([py "2023-09-14 09:00:00 Carol(333)"] ++ py "2023-09-15 10:00:00 Alice(111)"
       :: py "2023-09-15 10:00:01 Bob(222)" :: [py "hello world"])
  = get_statistics ascii_isdecimal space_lcut None None None None
      ([py "2023-09-14 09:00:00 Carol(333)"]
         ++ py "2023-09-15 10:00:01 Bob(222)" :: [py "hello world"])
  /\ get_statistics ascii_isdecimal space_lcut None None None None
       ([py "2023-09-14 09:00:00 Carol(333)"] ++ [py "2023-09-15 10:00:00 Alice(111)"])
     = get_statistics ascii_isdecimal space_lcut None None None None
         [py "2023-09-14 09:00:00 Carol(333)"].
Proof.
  apply (header_without_body_leaves_no_trace ascii_isdecimal space_lcut
           None None None None [py "2023-09-14 09:00:00 Carol(333)"]
           [py "hello world"] (py "2023-09-15 10:00:00 Alice(111)")
           (py "2023-09-15 10:00:01 Bob(222)") (py "2023-09-15") (py "2023-09-15"));
    vm_compute; reflexivity.
Defined.

Lemma continuation_lines_are_ignored_witness :
  get_statistics ascii_isdecimal space_lcut None None None None
    ([py "2023-09-15 10:00:00 Alice(111)"] ++ py "hello" :: py "world" :: [])
  = get_statistics ascii_isdecimal space_lcut None None None None
      ([py "2023-09-15 10:00:00 Alice(111)"] ++ py "hello" :: [])
  /\ get_statistics ascii_isdecimal space_lcut None None None None (py "world" :: [])
     = get_statistics ascii_isdecimal space_lcut None None None None [].
Proof.
  apply (continuation_lines_are_ignored ascii_isdecimal space_lcut
           None None None None [py "2023-09-15 10:00:00 Alice(111)"] []
           (py "hello") (py "world"));
    vm_compute; reflexivity.
Defined.

(** ** The preprocessor, in general *)

Lemma dots_then_space_no_space (t : pystr) :
  SPACE ∉ t -> dots_then_space t = None.
Proof.
  induction t as [|c t IH]; intros Hs; [reflexivity|].
  apply not_elem_of_cons in Hs as [Hc Ht]. cbn [dots_then_space].
  rewrite (IH Ht).
  destruct (char_eqb c LF); [reflexivity|].
  destruct (char_eqb c SPACE) eqn:E; [|reflexivity].
  apply char_eqb_eq in E. congruence.
Qed.

Lemma match_mention_no_space (s : pystr) : SPACE ∉ s -> match_mention s = None.
Proof.
  intros Hs. destruct s as [|a [|c t]]; [reflexivity..|].
  apply not_elem_of_cons in Hs as [_ Hs]. apply not_elem_of_cons in Hs as [_ Hs].
  unfold match_mention. rewrite (dots_then_space_no_space t Hs).
  destruct (char_eqb a AT && negb (char_eqb c LF)); reflexivity.
Qed.

Lemma match_mention_not_at (c : char) (s : pystr) :
  c <> AT -> match_mention (c :: s) = None.
Proof.
  intros Hc. unfold match_mention. destruct s as [|c' t]; [reflexivity|].
  destruct (char_eqb c AT) eqn:E; [|reflexivity].
  apply char_eqb_eq in E. congruence.
Qed.

Lemma re_sub_mention_no_space (s : pystr) : SPACE ∉ s -> re_sub_mention 0 s = s.
Proof.
  induction s as [|c s IH]; intros Hs; [reflexivity|].
  cbn [re_sub_mention]. rewrite (match_mention_no_space _ Hs).
  apply not_elem_of_cons in Hs as [_ Hs]. rewrite (IH Hs). reflexivity.
Qed.

(** The text before the first [@] is kept as it is. *)
Lemma re_sub_mention_prefix (pre rest : pystr) :
  AT ∉ pre -> re_sub_mention 0 (pre ++ rest) = pre ++ re_sub_mention 0 rest.
Proof.
  induction pre as [|c pre IH]; intros Hp; [reflexivity|].
  apply not_elem_of_cons in Hp as [Hc Hp].
  change ((c :: pre) ++ rest) with (c :: (pre ++ rest)).
  cbn [re_sub_mention]. rewrite (match_mention_not_at c _ (not_eq_sym Hc)).
  rewrite (IH Hp). reflexivity.
Qed.

Lemma re_sub_mention_skip (n : nat) (s : pystr) :
  re_sub_mention n s = re_sub_mention 0 (drop n s).
Proof.
  revert s. induction n as [|n IH]; intros s; [reflexivity|].
  destruct s as [|c s]; [reflexivity|].
  cbn [re_sub_mention drop]. apply IH.
Qed.

(** The dot runs to the last space of the line. *)
Lemma dots_then_space_last (t post : pystr) :
  LF ∉ t -> SPACE ∉ post ->
  dots_then_space (t ++ SPACE :: post) = Some (S (length t)).
Proof.
  intros Ht Hp. induction t as [|c t IH].
  - cbn [app dots_then_space length].
    rewrite (dots_then_space_no_space post Hp).
    change (char_eqb SPACE LF) with false. rewrite char_eqb_refl. reflexivity.
  - apply not_elem_of_cons in Ht as [Hc Ht].
    change ((c :: t) ++ SPACE :: post) with (c :: (t ++ SPACE :: post)).
    cbn [dots_then_space length]. rewrite (IH Ht).
    destruct (char_eqb c LF) eqn:E; [|reflexivity].
    apply char_eqb_eq in E. congruence.
Qed.

(** X6.  What [qq_msg_preprocessor] removes from a line: everything from
    the first [@] up to and including the last space of the line, whenever
    at least one character stands between the two; only the text before
    that [@] and the text after that space are left. *)
Theorem qq_msg_preprocessor_removes_up_to_the_last_space (pre mid post : pystr) :
  AT ∉ pre ->
  mid <> [] ->
  LF ∉ mid ->
  SPACE ∉ post ->
  qq_msg_preprocessor (pre ++ [AT] ++ mid ++ [SPACE] ++ post) = pre ++ post.
Proof.
  intros Hpre Hmid Hlf Hpost. unfold qq_msg_preprocessor.
  rewrite (re_sub_mention_prefix pre _ Hpre). f_equal.
  destruct mid as [|c t]; [congruence|].
  apply not_elem_of_cons in Hlf as [Hc Ht].
  change ([AT] ++ (c :: t) ++ [SPACE] ++ post)
    with (AT :: c :: (t ++ SPACE :: post)).
  cbn [re_sub_mention]. unfold match_mention.
  rewrite char_eqb_refl.
  destruct (char_eqb c LF) eqn:E; [apply char_eqb_eq in E; congruence|].
  cbn [andb negb]. rewrite (dots_then_space_last t post Ht Hpost).
  cbn [option_map]. rewrite re_sub_mention_skip.
  change (drop (S (S (length t))) (c :: t ++ SPACE :: post))
    with (drop (S (length t)) (t ++ SPACE :: post)).
  replace (t ++ SPACE :: post) with ((t ++ [SPACE]) ++ post)
    by (rewrite <- app_assoc; reflexivity).
  replace (S (length t)) with (length (t ++ [SPACE]))
    by (rewrite length_app; cbn; lia).
  rewrite drop_app_length. apply re_sub_mention_no_space. exact Hpost.
Qed.

Lemma qq_msg_preprocessor_removes_up_to_the_last_space_witness :
  qq_msg_preprocessor (py "hi " ++ [AT] ++ py "Bob and @Eve" ++ [SPACE] ++ py "bye")
  = py "hi " ++ py "bye".
Proof.
  apply (qq_msg_preprocessor_removes_up_to_the_last_space
           (py "hi ") (py "Bob and @Eve") (py "bye")).
  - apply (bool_decide_unpack _). vm_compute. exact I.
  - discriminate.
  - apply (bool_decide_unpack _). vm_compute. exact I.
  - apply (bool_decide_unpack _). vm_compute. exact I.
Defined.

(** X7.  A line in which no space comes after the first [@] (a line without
    [@], a line without space, an address such as [bob@example.org] at the
    end of a line) comes out of [qq_msg_preprocessor] as it went in. *)
Theorem qq_msg_preprocessor_keeps_lines_without_space_after_at (pre rest : pystr) :
  AT ∉ pre -> SPACE ∉ rest -> qq_msg_preprocessor (pre ++ rest) = pre ++ rest.
Proof.
  intros Hpre Hrest. unfold qq_msg_preprocessor.
  rewrite (re_sub_mention_prefix pre rest Hpre).
  rewrite (re_sub_mention_no_space rest Hrest). reflexivity.
Qed.

Lemma qq_msg_preprocessor_keeps_lines_without_space_after_at_witness :
  qq_msg_preprocessor (py "mail me: bob" ++ py "@example.org")
  = py "mail me: bob" ++ py "@example.org".
Proof.
  apply (qq_msg_preprocessor_keeps_lines_without_space_after_at
           (py "mail me: bob") (py "@example.org"));
    apply (bool_decide_unpack _); vm_compute; exact I.
Defined.

(** ** Reserved ids *)

Lemma fold_tally_speak_absent (lcut : pystr -> list pystr)
    (msg_preprocessor : option (pystr -> pystr)) (word_filter : option (pystr -> bool))
    (speak_filter : option (pystr -> pystr -> bool))
    (rs : list record) (acc : statistics) (qq : pystr) :
  (forall name, passes2 speak_filter name qq = false) ->
  acc.1.2 !! qq = None -> acc.2 !! qq = None ->
  (fold_left (tally_record lcut msg_preprocessor word_filter speak_filter) rs acc).1.2
    !! qq = None
  /\ (fold_left (tally_record lcut msg_preprocessor word_filter speak_filter) rs acc).2
       !! qq = None.
Proof.
  intros Hsf. revert acc. induction rs as [|r rs IH]; intros acc Hs Hc.
  - split; assumption.
  - cbn [fold_left]. apply IH; destruct acc as [[[[w t] a] s] c];
      cbn [tally_record fst snd] in *;
      (destruct (passes2 speak_filter (senderName r) (senderId r)) eqn:E;
       [|assumption]);
      (destruct (decide (senderId r = qq)) as [<-|Hne];
       [rewrite Hsf in E; discriminate|]).
    + rewrite incr_insert, lookup_insert_ne by exact Hne. exact Hs.
    + rewrite lookup_insert_ne by exact Hne. exact Hc.
Qed.

(** X8.  With [no_annoy_sys_speak_filter] installed, whatever the
    transcript and the other filters, neither the reserved anonymous id nor
    the reserved system id is ever a key of the speak-count map or of the
    card-name map. *)
Theorem reserved_ids_never_speak (isdecimal : char -> bool)
    (lcut : pystr -> list pystr)
    (msg_filter : option (pystr -> pystr -> pystr -> pystr -> bool))
    (msg_preprocessor : option (pystr -> pystr))
    (word_filter : option (pystr -> bool)) (lines : list pystr) :
  let '(_, _, _, speak_counts, card_names) :=
    get_statistics isdecimal lcut msg_filter msg_preprocessor word_filter
      (Some no_annoy_sys_speak_filter) lines in
  (speak_counts !! ANONYMOUS_QQ = None /\ card_names !! ANONYMOUS_QQ = None)
  /\ (speak_counts !! SYSTEM_QQ = None /\ card_names !! SYSTEM_QQ = None).
Proof.
  rewrite get_statistics_fold.
  pose proof (fold_tally_speak_absent lcut msg_preprocessor word_filter
                (Some no_annoy_sys_speak_filter)
                (accepted_records isdecimal msg_filter lines) ([], ∅, ∅, ∅, ∅)) as H.
  destruct (fold_left _ _ _) as [[[[w t] a] s] c]. cbn [fst snd] in H.
  split; apply H; try apply lookup_empty; intros name; cbn [passes2];
    unfold no_annoy_sys_speak_filter.
  - rewrite bool_decide_eq_true_2 by reflexivity. reflexivity.
  - rewrite (bool_decide_eq_true_2 (SYSTEM_QQ = SYSTEM_QQ)) by reflexivity.
    apply andb_false_r.
Qed.

(** ** Ordered dictionaries *)

Lemma od_get_lookup {V : Type} (d : odict V) (k : pystr) :
  od_get d k = (list_to_map d : gmap pystr V) !! k.
Proof.
  induction d as [|[k' v] d IH]; [reflexivity|].
  cbn [od_get list_to_map foldr uncurry fst snd].
  destruct (decide (k' = k)) as [->|Hne].
  - rewrite lookup_insert_eq. reflexivity.
  - rewrite lookup_insert_ne by exact Hne. exact IH.
Qed.

Lemma list_to_map_od_set {V : Type} (d : odict V) (k : pystr) (v : V) :
  (list_to_map (od_set d k v) : gmap pystr V) = <[k := v]> (list_to_map d).
Proof.
  induction d as [|[k' v'] d IH]; [reflexivity|].
  cbn [od_set]. destruct (decide (k' = k)) as [->|Hne].
  - cbn [list_to_map foldr uncurry fst snd]. rewrite insert_insert_eq. reflexivity.
  - cbn [list_to_map foldr uncurry fst snd].
    change (foldr _ _ (od_set d k v)) with (list_to_map (od_set d k v) : gmap pystr V).
    rewrite IH. apply insert_insert_ne. exact Hne.
Qed.

Lemma list_to_map_od_incr (d : odict Z) (k : pystr) :
  (list_to_map (od_incr d k) : gmap pystr Z) = incr (list_to_map d) k.
Proof.
  unfold od_incr, incr. rewrite od_get_lookup.
  destruct (list_to_map d !! k); apply list_to_map_od_set.
Qed.

Lemma od_keys_od_set {V : Type} (d : odict V) (k : pystr) (v : V) :
  od_keys (od_set d k v) = add_key (od_keys d) k.
Proof.
  unfold add_key. induction d as [|[k' v'] d IH].
  - cbn. rewrite bool_decide_eq_false_2 by apply not_elem_of_nil. reflexivity.
  - cbn [od_set]. destruct (decide (k' = k)) as [->|Hne].
    + cbn [od_keys map fst].
      rewrite bool_decide_eq_true_2 by apply list_elem_of_here. reflexivity.
    + cbn [od_keys map fst]. fold (od_keys (od_set d k v)). rewrite IH.
      fold (od_keys d).
      destruct (bool_decide (k ∈ od_keys d)) eqn:E.
      * apply bool_decide_eq_true in E.
        rewrite bool_decide_eq_true_2 by (apply list_elem_of_further; exact E).
        reflexivity.
      * apply bool_decide_eq_false in E.
        rewrite bool_decide_eq_false_2; [reflexivity|].
        intros Hin. apply elem_of_cons in Hin as [Heq|Hin]; [congruence|contradiction].
Qed.

Lemma od_keys_od_incr (d : odict Z) (k : pystr) :
  od_keys (od_incr d k) = add_key (od_keys d) k.
Proof. unfold od_incr. destruct (od_get d k); apply od_keys_od_set. Qed.

Lemma add_key_NoDup (keys : list pystr) (k : pystr) :
  NoDup keys -> NoDup (add_key keys k).
Proof.
  intros H. unfold add_key. destruct (bool_decide (k ∈ keys)) eqn:E; [exact H|].
  apply bool_decide_eq_false in E. apply NoDup_app. split; [exact H|].
  split; [|apply NoDup_singleton].
  intros x Hx Hx'. apply list_elem_of_singleton in Hx'. subst x. contradiction.
Qed.

Lemma fold_add_key_NoDup (l keys : list pystr) :
  NoDup keys -> NoDup (fold_left add_key l keys).
Proof.
  revert keys. induction l as [|k l IH]; intros keys H; [exact H|].
  cbn [fold_left]. apply IH, add_key_NoDup, H.
Qed.

Lemma first_seen_filter (p : pystr -> bool) (x : pystr) (l : list pystr) :
  p x = false ->
  List.filter p (List.filter (fun y => negb (bool_decide (y = x))) l) = List.filter p l.
Proof.
  intros Hx. induction l as [|y l IH]; [reflexivity|].
  cbn [List.filter]. destruct (decide (y = x)) as [->|Hne].
  - rewrite bool_decide_eq_true_2 by reflexivity. cbn [negb]. rewrite Hx. exact IH.
  - rewrite bool_decide_eq_false_2 by exact Hne. cbn [negb List.filter].
    rewrite IH. reflexivity.
Qed.

Lemma filter_not_in_snoc (keys fs : list pystr) (k : pystr) :
  List.filter (fun y => negb (bool_decide (y ∈ keys ++ [k]))) fs
  = List.filter (fun y => negb (bool_decide (y ∈ keys)))
      (List.filter (fun y => negb (bool_decide (y = k))) fs).
Proof.
  induction fs as [|y fs IH]; [reflexivity|].
  cbn [List.filter]. rewrite IH.
  destruct (decide (y = k)) as [->|Hne].
  - rewrite (bool_decide_eq_true_2 (k = k)) by reflexivity.
    rewrite bool_decide_eq_true_2
      by (apply elem_of_app; right; apply list_elem_of_here).
    reflexivity.
  - rewrite (bool_decide_eq_false_2 (y = k)) by exact Hne. cbn [negb List.filter].
    destruct (bool_decide (y ∈ keys)) eqn:Ey.
    + apply bool_decide_eq_true in Ey.
      rewrite bool_decide_eq_true_2 by (apply elem_of_app; left; exact Ey).
      reflexivity.
    + apply bool_decide_eq_false in Ey.
      rewrite bool_decide_eq_false_2; [reflexivity|].
      intros Hin. apply elem_of_app in Hin as [Hin|Hin]; [contradiction|].
      apply list_elem_of_singleton in Hin. contradiction.
Qed.

(** Adding keys one by one lists them in the order of their first
    occurrence. *)
Lemma fold_add_key_first_seen (l keys : list pystr) :
  fold_left add_key l keys
  = keys ++ List.filter (fun y => negb (bool_decide (y ∈ keys))) (first_seen l).
Proof.
  revert keys. induction l as [|k l IH]; intros keys.
  - cbn. rewrite app_nil_r. reflexivity.
  - cbn [fold_left first_seen List.filter]. rewrite IH. unfold add_key.
    destruct (bool_decide (k ∈ keys)) eqn:E; cbn [negb].
    + rewrite first_seen_filter; [reflexivity|]. rewrite E. reflexivity.
    + rewrite <- app_assoc. cbn [app]. do 2 f_equal.
      apply filter_not_in_snoc.
Qed.

Lemma fold_add_key_nil (l : list pystr) : fold_left add_key l [] = first_seen l.
Proof.
  rewrite fold_add_key_first_seen. cbn [app].
  induction (first_seen l) as [|y fs IH]; [reflexivity|].
  cbn [List.filter]. rewrite bool_decide_eq_false_2 by apply not_elem_of_nil.
  cbn [negb]. rewrite IH. reflexivity.
Qed.

Section Ordered.

Variable isdecimal : char -> bool.
Variable lcut : pystr -> list pystr.
Variable msg_filter : option (pystr -> pystr -> pystr -> pystr -> bool).
Variable msg_preprocessor : option (pystr -> pystr).
Variable word_filter : option (pystr -> bool).
Variable speak_filter : option (pystr -> pystr -> bool).

Local Abbreviation tally_record_ordered' :=
  (tally_record_ordered lcut msg_preprocessor word_filter speak_filter).
Local Abbreviation loop_body_ordered' :=
  (loop_body_ordered isdecimal lcut msg_filter msg_preprocessor word_filter
     speak_filter).
Local Abbreviation get_statistics_ordered' :=
  (get_statistics_ordered isdecimal lcut msg_filter msg_preprocessor word_filter
     speak_filter).
Local Abbreviation accepted_records' := (accepted_records isdecimal msg_filter).

(** The loop on ordered dictionaries tallies the accepted records still to
    come, in order. *)
Lemma run_ordered_fold (lines : list pystr) (v : locals) (acc : ostatistics) :
  snd (fold_left loop_body_ordered' lines (v, acc))
  = fold_left tally_record_ordered'
      (List.filter (accepted msg_filter)
         (pending isdecimal
            (LoopState (is_info_line v) (info_line v) (info_date v) [] ∅ ∅ ∅ ∅) lines))
      acc.
Proof.
  revert v acc. induction lines as [|l lines IH]; intros v acc; [reflexivity|].
  cbn [fold_left]. unfold pending at 1.
  cbn [prev_is_info_line prev_info_line prev_date].
  unfold loop_body_ordered at 2.
  destruct (re_search_date isdecimal (strip l)) as [d|] eqn:El.
  - rewrite IH.
    replace (if is_info_line v then [] else []) with (@nil record)
      by (destruct (is_info_line v); reflexivity).
    cbn [app is_info_line info_line info_date].
    erewrite (records_cons_header isdecimal _ l d lines El); reflexivity.
  - rewrite (records_cons_other isdecimal l lines El).
    destruct (is_info_line v) eqn:Ep.
    + cbn [app]. rewrite filter_accepted_cons.
      destruct (passes4 msg_filter _ _ _ _) eqn:Ef.
      * rewrite IH. cbn [fold_left is_info_line].
        rewrite pending_idle by reflexivity. reflexivity.
      * rewrite IH. rewrite pending_idle by reflexivity. reflexivity.
    + cbn [app]. rewrite IH. rewrite pending_idle by reflexivity. reflexivity.
Qed.

Lemma get_statistics_ordered_fold (lines : list pystr) :
  get_statistics_ordered' lines
  = fold_left tally_record_ordered' (accepted_records' lines) ([], [], [], [], []).
Proof.
  unfold get_statistics_ordered. rewrite run_ordered_fold.
  rewrite pending_idle by reflexivity. reflexivity.
Qed.

Lemma unordered_tally (acc : ostatistics) (r : record) :
  unordered (tally_record_ordered' acc r)
  = tally_record lcut msg_preprocessor word_filter speak_filter (unordered acc) r.
Proof.
  destruct acc as [[[[w t] a] s] c].
  unfold tally_record_ordered, tally_ordered, tally_record, unordered.
  destruct (passes2 speak_filter (senderName r) (senderId r));
    destruct (decide (senderId r = ANONYMOUS_QQ));
    rewrite ?list_to_map_od_incr, ?list_to_map_od_set; reflexivity.
Qed.

Lemma unordered_fold (rs : list record) (acc : ostatistics) :
  unordered (fold_left tally_record_ordered' rs acc)
  = fold_left (tally_record lcut msg_preprocessor word_filter speak_filter) rs
      (unordered acc).
Proof.
  revert acc. induction rs as [|r rs IH]; intros acc; [reflexivity|].
  cbn [fold_left]. rewrite IH, unordered_tally. reflexivity.
Qed.

Lemma fold_ordered_total_keys (rs : list record) (acc : ostatistics) :
  od_keys (fold_left tally_record_ordered' rs acc).1.1.1.2
  = fold_left add_key (map date rs) (od_keys acc.1.1.1.2).
Proof.
  revert acc. induction rs as [|r rs IH]; intros acc; [reflexivity|].
  cbn [fold_left map]. rewrite IH. destruct acc as [[[[w t] a] s] c].
  cbn [tally_record_ordered tally_ordered fst snd].
  rewrite od_keys_od_incr. reflexivity.
Qed.

Lemma fold_ordered_annoy_keys (rs : list record) (acc : ostatistics) :
  od_keys (fold_left tally_record_ordered' rs acc).1.1.2
  = fold_left add_key
      (map date (List.filter (fun r => bool_decide (senderId r = ANONYMOUS_QQ)) rs))
      (od_keys acc.1.1.2).
Proof.
  revert acc. induction rs as [|r rs IH]; intros acc; [reflexivity|].
  cbn [fold_left List.filter]. rewrite IH. destruct acc as [[[[w t] a] s] c].
  cbn [tally_record_ordered tally_ordered fst snd].
  destruct (decide (senderId r = ANONYMOUS_QQ)) as [E|E].
  - rewrite (bool_decide_eq_true_2 _ E). cbn [map fold_left].
    rewrite od_keys_od_incr. reflexivity.
  - rewrite (bool_decide_eq_false_2 _ E). reflexivity.
Qed.

Lemma fold_ordered_speak_keys (rs : list record) (acc : ostatistics) :
  od_keys (fold_left tally_record_ordered' rs acc).1.2
  = fold_left add_key
      (map senderId
         (List.filter (fun r => passes2 speak_filter (senderName r) (senderId r)) rs))
      (od_keys acc.1.2)
  /\ od_keys (fold_left tally_record_ordered' rs acc).2
     = fold_left add_key
         (map senderId
            (List.filter (fun r => passes2 speak_filter (senderName r) (senderId r)) rs))
         (od_keys acc.2).
Proof.
  revert acc. induction rs as [|r rs IH]; intros acc; [split; reflexivity|].
  cbn [fold_left List.filter]. destruct (IH (tally_record_ordered' acc r)) as [IH1 IH2].
  rewrite IH1, IH2. clear IH IH1 IH2. destruct acc as [[[[w t] a] s] c].
  cbn [tally_record_ordered tally_ordered fst snd].
  destruct (passes2 speak_filter (senderName r) (senderId r)).
  - cbn [map fold_left]. rewrite od_keys_od_incr, od_keys_od_set. split; reflexivity.
  - split; reflexivity.
Qed.

(** The ordered results against the unordered ones, and what the reports
    use of the keys. *)
Lemma get_statistics_ordered_spec (lines : list pystr) :
  let '(w, t, a, s, c) := get_statistics_ordered' lines in
  get_statistics isdecimal lcut msg_filter msg_preprocessor word_filter speak_filter
    lines
  = (w, list_to_map t, list_to_map a, list_to_map s, list_to_map c)
  /\ NoDup (od_keys t)
  /\ od_keys t = first_seen (map date (accepted_records' lines))
  /\ od_keys c = od_keys s.
Proof.
  rewrite get_statistics_fold, get_statistics_ordered_fold.
  pose proof (unordered_fold (accepted_records' lines) ([], [], [], [], [])) as Hu.
  pose proof (fold_ordered_total_keys (accepted_records' lines) ([], [], [], [], []))
    as Ht.
  destruct (fold_ordered_speak_keys (accepted_records' lines) ([], [], [], [], []))
    as [Hs Hc].
  destruct (fold_left tally_record_ordered' _ _) as [[[[w t] a] s] c].
  cbn [fst snd od_keys map] in Ht, Hs, Hc.
  fold (od_keys t) in Ht. fold (od_keys s) in Hs. fold (od_keys c) in Hc.
  split; [symmetry; exact Hu|].
  split; [rewrite Ht; apply fold_add_key_NoDup, NoDup_nil_2|].
  split; [rewrite Ht; apply fold_add_key_nil|].
  rewrite Hs, Hc. reflexivity.
Qed.

(** X9.  The dictionaries [get_statistics] returns, with their order: they
    hold the items of the maps of the unordered reading, one item per key;
    the dates of [total_counts] come in the order in which they are first
    met among the accepted records, those of [annoy_counts] in the order of
    the first anonymous record of each date, and the ids of [speak_counts]
    and [card_names], the same in both, in the order of the first record of
    each sender that passes [speak_filter]. *)
Theorem dictionaries_keep_first_seen_order (lines : list pystr) :
  let '(w, t, a, s, c) := get_statistics_ordered' lines in
  get_statistics isdecimal lcut msg_filter msg_preprocessor word_filter speak_filter
    lines
  = (w, list_to_map t, list_to_map a, list_to_map s, list_to_map c)
  /\ (NoDup (od_keys t) /\ NoDup (od_keys a) /\ NoDup (od_keys s) /\ NoDup (od_keys c))
  /\ od_keys t = first_seen (map date (accepted_records' lines))
  /\ od_keys a
     = first_seen
         (map date (List.filter (fun r => bool_decide (senderId r = ANONYMOUS_QQ))
                      (accepted_records' lines)))
  /\ od_keys s
     = first_seen
         (map senderId
            (List.filter (fun r => passes2 speak_filter (senderName r) (senderId r))
               (accepted_records' lines)))
  /\ od_keys c = od_keys s.
Proof.
  rewrite get_statistics_fold, get_statistics_ordered_fold.
  pose proof (unordered_fold (accepted_records' lines) ([], [], [], [], [])) as Hu.
  pose proof (fold_ordered_total_keys (accepted_records' lines) ([], [], [], [], []))
    as Ht.
  pose proof (fold_ordered_annoy_keys (accepted_records' lines) ([], [], [], [], []))
    as Ha.
  destruct (fold_ordered_speak_keys (accepted_records' lines) ([], [], [], [], []))
    as [Hs Hc].
  destruct (fold_left tally_record_ordered' _ _) as [[[[w t] a] s] c].
  cbn [fst snd od_keys map] in Ht, Ha, Hs, Hc.
  fold (od_keys t) in Ht. fold (od_keys a) in Ha.
  fold (od_keys s) in Hs. fold (od_keys c) in Hc.
  split; [symmetry; exact Hu|].
  split.
  { rewrite Ht, Ha, Hs, Hc.
    repeat split; apply fold_add_key_NoDup, NoDup_nil_2. }
  rewrite Ht, Ha, Hs, Hc, !fold_add_key_nil. repeat split; reflexivity.
Qed.

End Ordered.

(** ** The counts sheet *)

Lemma od_item_lookup {V : Type} (d : odict V) (k : pystr) (v : V) :
  NoDup (od_keys d) -> (k, v) ∈ d -> (list_to_map d : gmap pystr V) !! k = Some v.
Proof. intros Hnd Hin. apply elem_of_list_to_map_1; assumption. Qed.

Lemma count_records_nonneg (p : record -> bool) (rs : list record) :
  0 <= count_records p rs.
Proof. unfold count_records. lia. Qed.

Lemma count_records_andb (p q : record -> bool) (rs : list record) :
  count_records (fun r => p r && q r) rs <= count_records p rs.
Proof. unfold count_records. pose proof (filter_andb_length p q rs). lia. Qed.

Lemma get_statistics_counts_positive (isdecimal : char -> bool)
    (lcut : pystr -> list pystr)
    (msg_filter : option (pystr -> pystr -> pystr -> pystr -> bool))
    (msg_preprocessor : option (pystr -> pystr))
    (word_filter : option (pystr -> bool))
    (speak_filter : option (pystr -> pystr -> bool)) (lines : list pystr) :
  day_counts_ok
    (run_loop isdecimal lcut msg_filter msg_preprocessor word_filter speak_filter
       initial_state lines).
Proof.
  apply (run_loop_invariant isdecimal lcut msg_filter msg_preprocessor word_filter
           speak_filter day_counts_ok).
  - intros st st' [Ht Ha _ _|name qq i ->] Hst.
    + unfold day_counts_ok. rewrite Ht, Ha. exact Hst.
    + apply day_counts_ok_tally. exact Hst.
  - split; [reflexivity|]. split; apply counts_positive_empty.
Qed.

(** X10.  The counts sheet written from what [get_statistics] returns has
    one row per date with an accepted record, in the order in which the
    dates are first met; a row holds the date, the number of accepted
    records of the date, the number of those sent with the anonymous id (0
    when there is none), and the quotient of 100 times the second by the
    first.  The total of a row is never 0, so the guard against a division
    by zero never leaves the percentage at its initial 0, and the anonymous
    count lies between 0 and the total. *)
Theorem counts_sheet_rows (isdecimal : char -> bool) (lcut : pystr -> list pystr)
    (msg_filter : option (pystr -> pystr -> pystr -> pystr -> bool))
    (msg_preprocessor : option (pystr -> pystr))
    (word_filter : option (pystr -> bool))
    (speak_filter : option (pystr -> pystr -> bool)) (lines : list pystr) :
  let '(_, t, a, _, _) :=
    get_statistics_ordered isdecimal lcut msg_filter msg_preprocessor word_filter
      speak_filter lines in
  let rs := accepted_records isdecimal msg_filter lines in
  let total_of d := count_records (fun r => bool_decide (date r = d)) rs in
  let annoy_of d :=
    count_records
      (fun r => bool_decide (date r = d) && bool_decide (senderId r = ANONYMOUS_QQ))
      rs in
  save_counts_xlsx t a
  = map (fun d => CountsRow d (total_of d) (annoy_of d)
                    (PercentOf (100 * annoy_of d) (total_of d)))
      (first_seen (map date rs))
  /\ Forall (fun row => 1 <= row_total row /\ 0 <= row_annoy row <= row_total row)
       (save_counts_xlsx t a).
Proof.
  pose proof (get_statistics_ordered_spec isdecimal lcut msg_filter
                msg_preprocessor word_filter speak_filter lines) as H.
  destruct (get_statistics_ordered _ _ _ _ _ _ _) as [[[[w t] a] s] c].
  destruct H as (Hu & Hnd & Ht & _).
  cbv zeta.
  set (rs := accepted_records isdecimal msg_filter lines) in *.
  pose proof (fold_tally_total lcut msg_preprocessor word_filter speak_filter
                rs ([], ∅, ∅, ∅, ∅)) as Htot.
  pose proof (fold_tally_annoy lcut msg_preprocessor word_filter speak_filter
                rs ([], ∅, ∅, ∅, ∅)) as Hann.
  pose proof (get_statistics_counts_positive isdecimal lcut msg_filter
                msg_preprocessor word_filter speak_filter lines) as (_ & Hpos & _).
  fold (get_statistics isdecimal lcut msg_filter msg_preprocessor word_filter
          speak_filter lines) in Hu.
  assert (Hpos' : counts_positive (list_to_map t)).
  { unfold get_statistics, result_of in Hu. injection Hu as _ Ht' _ _ _.
    rewrite <- Ht'. exact Hpos. }
  rewrite get_statistics_fold in Hu. fold rs in Hu.
  rewrite Hu in Htot, Hann. cbn [fst snd] in Htot, Hann.
  assert (Hrow : forall i v, (i, v) ∈ t ->
            v = count_records (fun r => bool_decide (date r = i)) rs /\ 1 <= v).
  { intros i v Hin. pose proof (od_item_lookup t i v Hnd Hin) as Hl.
    split; [|exact (Hpos' i v Hl)].
    specialize (Htot i). unfold count_of in Htot at 1 2.
    rewrite Hl, lookup_empty in Htot. cbn [default from_option id] in Htot. lia. }
  assert (Hrows : save_counts_xlsx t a
    = map (fun d =>
             CountsRow d (count_records (fun r => bool_decide (date r = d)) rs)
               (count_records
                  (fun r => bool_decide (date r = d)
                            && bool_decide (senderId r = ANONYMOUS_QQ)) rs)
               (PercentOf
                  (100 * count_records
                           (fun r => bool_decide (date r = d)
                                     && bool_decide (senderId r = ANONYMOUS_QQ)) rs)
                  (count_records (fun r => bool_decide (date r = d)) rs)))
        (od_keys t)).
  { unfold save_counts_xlsx, od_keys. rewrite map_map.
    apply map_ext_in. intros [i v] Hin. apply list_elem_of_In in Hin.
    destruct (Hrow i v Hin) as [Hv Hge]. cbn [fst snd].
    assert (Hannoy : match od_get a i with Some c0 => c0 | None => 0 end
                     = count_records
                         (fun r => bool_decide (date r = i)
                                   && bool_decide (senderId r = ANONYMOUS_QQ)) rs).
    { specialize (Hann i). unfold count_of in Hann at 1 2.
      rewrite lookup_empty in Hann. cbn [default from_option id] in Hann.
      rewrite od_get_lookup.
      destruct (list_to_map a !! i); cbn [default from_option id] in Hann; lia. }
    rewrite Hannoy. rewrite decide_True by lia. rewrite <- Hv. reflexivity. }
  split; [rewrite Hrows, Ht; reflexivity|].
  rewrite Hrows. apply Forall_forall. intros row Hrow'.
  apply list_elem_of_In, in_map_iff in Hrow' as (d & <- & Hd).
  cbn [row_total row_annoy].
  assert (Hex : exists v, (d, v) ∈ t).
  { unfold od_keys in Hd. apply in_map_iff in Hd as ([d' v] & Hfst & Hin).
    cbn in Hfst. subst d'. exists v. apply list_elem_of_In. exact Hin. }
  destruct Hex as [v Hin]. destruct (Hrow d v Hin) as [Hv Hge].
  split; [lia|]. split; [apply count_records_nonneg|apply count_records_andb].
Qed.

(** ** The speaker sheet *)

Section SortByCount.

Context {A : Type}.

Lemma insert_by_count_perm (x : A * Z) (l : list (A * Z)) :
  Permutation (insert_by_count x l) (x :: l).
Proof.
  induction l as [|y l IH]; [reflexivity|].
  cbn [insert_by_count]. destruct (x.2 <? y.2); [|reflexivity].
  rewrite IH. apply perm_swap.
Qed.

Lemma sort_by_count_perm (l : list (A * Z)) : Permutation (sort_by_count l) l.
Proof.
  induction l as [|x l IH]; [reflexivity|].
  cbn [sort_by_count]. rewrite insert_by_count_perm, IH. reflexivity.
Qed.

Lemma insert_by_count_sorted (x : A * Z) (l : list (A * Z)) :
  StronglySorted by_decreasing_count l ->
  StronglySorted by_decreasing_count (insert_by_count x l).
Proof.
  induction l as [|y l IH]; intros Hl.
  - repeat constructor.
  - apply StronglySorted_inv in Hl as [Hl Hy].
    cbn [insert_by_count]. destruct (x.2 <? y.2) eqn:E.
    + apply Z.ltb_lt in E. constructor; [apply IH; exact Hl|].
      rewrite insert_by_count_perm. constructor; [|exact Hy].
      unfold by_decreasing_count. lia.
    + apply Z.ltb_ge in E. constructor; [constructor; assumption|].
      constructor; [exact E|].
      eapply Forall_impl; [exact Hy|].
      intros z Hz. unfold by_decreasing_count in *. lia.
Qed.

Lemma sort_by_count_sorted (l : list (A * Z)) :
  StronglySorted by_decreasing_count (sort_by_count l).
Proof.
  induction l as [|x l IH]; [constructor|].
  cbn [sort_by_count]. apply insert_by_count_sorted, IH.
Qed.

Lemma insert_by_count_stable (n : Z) (x : A * Z) (l : list (A * Z)) :
  List.filter (fun y => y.2 =? n) (insert_by_count x l)
  = List.filter (fun y => y.2 =? n) (x :: l).
Proof.
  induction l as [|y l IH]; [reflexivity|].
  cbn [insert_by_count]. destruct (x.2 <? y.2) eqn:E; [|reflexivity].
  apply Z.ltb_lt in E. cbn [List.filter] in *. rewrite IH.
  destruct (x.2 =? n) eqn:Ex; [|reflexivity].
  apply Z.eqb_eq in Ex.
  destruct (y.2 =? n) eqn:Ey; [|reflexivity].
  apply Z.eqb_eq in Ey. lia.
Qed.

(** Items with the same count come out in the order they went in. *)
Lemma sort_by_count_stable (n : Z) (l : list (A * Z)) :
  List.filter (fun y => y.2 =? n) (sort_by_count l)
  = List.filter (fun y => y.2 =? n) l.
Proof.
  induction l as [|x l IH]; [reflexivity|].
  cbn [sort_by_count]. rewrite insert_by_count_stable.
  cbn [List.filter]. rewrite IH. reflexivity.
Qed.

End SortByCount.


(** The rows before sorting: one per speaker, in dictionary order, with the
    speaker's card name and count. *)
Lemma name_counts_Some (speak_counts : odict Z) (card_names : odict pystr)
    (rows : list (pystr * Z)) :
  name_counts speak_counts card_names = Some rows ->
  Forall2 (fun item row => od_get card_names item.1 = Some row.1 /\ row.2 = item.2)
    speak_counts rows.
Proof.
  revert rows. induction speak_counts as [|[qq n] rest IH]; intros rows H.
  - injection H as <-. constructor.
  - cbn [name_counts] in H.
    destruct (od_get card_names qq) as [name|] eqn:En; [|discriminate].
    destruct (name_counts rest card_names) as [rows'|]; [|discriminate].
    injection H as <-. constructor; [split; [exact En|reflexivity]|].
    apply IH. reflexivity.
Qed.




(** X12.  The rows [save_speak_counts_xlsx] writes are the pairs of card
    name and speak count of the ids of [speak_counts], one per id, sorted by
    decreasing count; ids with the same count keep the order they have in
    [speak_counts]. *)
Theorem speaker_sheet_rows_sorted_by_count
    (speak_counts : odict Z) (card_names : odict pystr) (rows : list (pystr * Z)) :
  save_speak_counts_xlsx speak_counts card_names = Some rows ->
  exists pairs,
    Forall2 (fun item pair => od_get card_names item.1 = Some pair.1 /\ pair.2 = item.2)
      speak_counts pairs
    /\ Permutation rows pairs
    /\ StronglySorted by_decreasing_count rows
    /\ forall n, List.filter (fun row => row.2 =? n) rows
                 = List.filter (fun pair => pair.2 =? n) pairs.
Proof.
  unfold save_speak_counts_xlsx. intros H.
  destruct (name_counts speak_counts card_names) as [pairs|] eqn:E; [|discriminate].
  injection H as <-. exists pairs.
  split; [apply name_counts_Some; exact E|].
  split; [apply sort_by_count_perm|].
  split; [apply sort_by_count_sorted|].
  intros n. apply sort_by_count_stable.
Qed.

Lemma speaker_sheet_rows_sorted_by_count_witness :
  exists pairs,
    Forall2 (fun item pair =>
               od_get [(py "111", py "Alice"); (py "222", py "Bob"); (py "333", py "Carol")]
                 item.1 = Some pair.1 /\ pair.2 = item.2)
      [(py "111", 2); (py "222", 5); (py "333", 2)] pairs
    /\ Permutation [(py "Bob", 5); (py "Alice", 2); (py "Carol", 2)] pairs
    /\ StronglySorted by_decreasing_count [(py "Bob", 5); (py "Alice", 2); (py "Carol", 2)]
    /\ forall n, List.filter (fun row => row.2 =? n)
                   [(py "Bob", 5); (py "Alice", 2); (py "Carol", 2)]
                 = List.filter (fun pair => pair.2 =? n) pairs.
Proof.
  apply (speaker_sheet_rows_sorted_by_count
           [(py "111", 2); (py "222", 5); (py "333", 2)]
           [(py "111", py "Alice"); (py "222", py "Bob"); (py "333", py "Carol")]
           [(py "Bob", 5); (py "Alice", 2); (py "Carol", 2)]).
  vm_compute. reflexivity.
Defined.

(** ** The most frequent words *)

Lemma first_seen_elem (l : list pystr) (x : pystr) : x ∈ first_seen l <-> x ∈ l.
Proof.
  induction l as [|y l IH].
  - reflexivity.
  - cbn [first_seen]. rewrite !elem_of_cons, <- IH.
    rewrite !list_elem_of_In, List.filter_In, <- !list_elem_of_In.
    rewrite negb_true_iff, bool_decide_eq_false.
    destruct (decide (x = y)); intuition congruence.
Qed.

Lemma first_seen_NoDup (l : list pystr) : NoDup (first_seen l).
Proof. rewrite <- fold_add_key_nil. apply fold_add_key_NoDup, NoDup_nil_2. Qed.

Lemma fold_od_incr_keys (ws : list pystr) (d : odict Z) :
  od_keys (fold_left od_incr ws d) = fold_left add_key ws (od_keys d).
Proof.
  revert d. induction ws as [|w ws IH]; intros d; [reflexivity|].
  cbn [fold_left]. rewrite IH, od_keys_od_incr. reflexivity.
Qed.

Lemma fold_od_incr_count (ws : list pystr) (d : odict Z) (w : pystr) :
  count_of (list_to_map (fold_left od_incr ws d)) w
  = count_of (list_to_map d) w + occurrences w ws.
Proof.
  unfold occurrences. revert d. induction ws as [|x ws IH]; intros d.
  - cbn. lia.
  - cbn [fold_left List.filter]. rewrite IH, list_to_map_od_incr, count_of_incr_at.
    destruct (decide (x = w)) as [E|E].
    + rewrite bool_decide_eq_true_2 by exact E. cbn [length]. lia.
    + rewrite bool_decide_eq_false_2 by exact E. lia.
Qed.

(** The dictionary [print_top_words] counts in: the distinct words in the
    order of their first occurrence, each with the number of its
    occurrences. *)
Lemma word_counts_items (words : list pystr) :
  od_keys (fold_left od_incr words []) = first_seen words
  /\ Forall (fun item : pystr * Z => item.2 = occurrences item.1 words)
       (fold_left od_incr words []).
Proof.
  assert (Hk : od_keys (fold_left od_incr words []) = first_seen words).
  { rewrite fold_od_incr_keys. apply fold_add_key_nil. }
  split; [exact Hk|].
  apply Forall_forall. intros [w n] Hin. cbn [fst snd].
  assert (Hnd : NoDup (od_keys (fold_left od_incr words []))).
  { rewrite Hk. apply first_seen_NoDup. }
  pose proof (od_item_lookup _ w n Hnd Hin) as Hl.
  pose proof (fold_od_incr_count words [] w) as Hc.
  unfold count_of in Hc at 1 2. rewrite Hl in Hc.
  change (list_to_map [] : gmap pystr Z) with (∅ : gmap pystr Z) in Hc.
  rewrite lookup_empty in Hc. cbn [default from_option id] in Hc. lia.
Qed.

Lemma sorted_take_drop {A : Type} (l : list (A * Z)) (k : nat) (x y : A * Z) :
  StronglySorted by_decreasing_count l ->
  x ∈ take k l -> y ∈ drop k l -> y.2 <= x.2.
Proof.
  intros Hs. revert k. induction Hs as [|z l Hs IH Hz]; intros k Hx Hy.
  - rewrite take_nil in Hx. apply elem_of_nil in Hx. contradiction.
  - destruct k as [|k]; [apply elem_of_nil in Hx; contradiction|].
    cbn [take drop] in Hx, Hy. apply elem_of_cons in Hx as [->|Hx].
    + rewrite Forall_forall in Hz. apply Hz. exact (subseteq_drop k l y Hy).
    + eapply IH; eassumption.
Qed.

Lemma sorted_take {A : Type} (l : list (A * Z)) (k : nat) :
  StronglySorted by_decreasing_count l ->
  StronglySorted by_decreasing_count (take k l).
Proof.
  intros Hs. revert k. induction Hs as [|z l Hs IH Hz]; intros k.
  - rewrite take_nil. constructor.
  - destruct k as [|k]; [constructor|]. cbn [take].
    constructor; [apply IH|].
    apply Forall_forall. intros y Hy. rewrite Forall_forall in Hz.
    apply Hz. exact (subseteq_take k l y Hy).
Qed.


Lemma ranking_sorted_by_occurrences (words : list pystr) (l : list (pystr * Z)) :
  StronglySorted by_decreasing_count l ->
  Forall (fun item : pystr * Z => item.2 = occurrences item.1 words) l ->
  StronglySorted (fun w w' => occurrences w' words <= occurrences w words) (map fst l).
Proof.
  intros Hs Hf. induction Hs as [|x l Hs IH Hx]; [constructor|].
  apply Forall_cons in Hf as [Hx' Hf]. cbn [map]. constructor; [apply IH; exact Hf|].
  apply Forall_forall. intros w Hw.
  apply list_elem_of_In, in_map_iff in Hw as (y & <- & Hy).
  apply list_elem_of_In in Hy.
  rewrite Forall_forall in Hx, Hf. specialize (Hx y Hy). specialize (Hf y Hy).
  unfold by_decreasing_count in Hx. lia.
Qed.

(** The ranking [print_top_words] prints from. *)
Lemma ranking_spec (words : list pystr) :
  let ranking := sort_by_count (fold_left od_incr words []) in
  Permutation (map fst ranking) (first_seen words)
  /\ Forall (fun item : pystr * Z => item.2 = occurrences item.1 words) ranking
  /\ StronglySorted by_decreasing_count ranking
  /\ length ranking = length (first_seen words).
Proof.
  cbv zeta. destruct (word_counts_items words) as [Hk Hf].
  pose proof (sort_by_count_perm (fold_left od_incr words [])) as Hp.
  split; [rewrite Hp; exact (eq_ind _ (fun l => Permutation l _) (reflexivity _) _
                               (eq_sym Hk))|].
  split; [rewrite Hp; exact Hf|].
  split; [apply sort_by_count_sorted|].
  rewrite Hp, <- Hk. unfold od_keys. rewrite length_map. reflexivity.
Qed.

(** X13.  For a [top_count] that is not negative, [print_top_words] prints
    [top_count] words, or every distinct word when there are fewer: each
    printed word is a word of the list and is printed once, the words come
    by decreasing number of occurrences, and no word left out occurs more
    often than a printed one. *)
Theorem print_top_words_prints_the_most_frequent
    (words : list pystr) (top_count : Z) :
  0 <= top_count ->
  let printed := print_top_words words top_count in
  NoDup printed
  /\ length printed = Nat.min (Z.to_nat top_count) (length (first_seen words))
  /\ (forall w, w ∈ printed -> w ∈ words)
  /\ StronglySorted (fun w w' => occurrences w' words <= occurrences w words) printed
  /\ (forall w w', w ∈ printed -> w' ∈ words -> w' ∉ printed ->
        occurrences w' words <= occurrences w words).
Proof.
  intros Htop. cbv zeta. unfold print_top_words, slice_to.
  destruct (ranking_spec words) as (Hperm & Hocc & Hsorted & Hlen).
  set (ranking := sort_by_count (fold_left od_incr words [])) in *.
  rewrite slice_bound_inside by lia.
  set (k := Z.to_nat (Z.min top_count (Z.of_nat (length ranking)))).
  assert (Hnd : NoDup (map fst ranking)).
  { rewrite Hperm. apply first_seen_NoDup. }
  assert (Htake : map fst (take k ranking) = take k (map fst ranking)).
  { apply (fmap_take fst). }
  split; [rewrite Htake; eapply sublist_NoDup; [exact Hnd|apply sublist_take]|].
  split; [rewrite length_map, length_take, <- Hlen; unfold k; lia|].
  split.
  { intros w Hw. rewrite Htake in Hw. apply subseteq_take in Hw.
    rewrite Hperm in Hw. apply first_seen_elem. exact Hw. }
  split.
  { apply ranking_sorted_by_occurrences.
    - apply sorted_take. exact Hsorted.
    - rewrite <- (take_drop k ranking) in Hocc.
      apply Forall_app in Hocc as [Hocc _]. exact Hocc. }
  intros w w' Hw Hw' Hout.
  apply list_elem_of_In, in_map_iff in Hw as (x & <- & Hx).
  apply list_elem_of_In in Hx.
  assert (Hin' : w' ∈ map fst ranking).
  { rewrite Hperm. apply first_seen_elem. exact Hw'. }
  apply list_elem_of_In, in_map_iff in Hin' as (y & <- & Hy).
  apply list_elem_of_In in Hy.
  rewrite <- (take_drop k ranking) in Hy. apply elem_of_app in Hy as [Hy|Hy].
  - exfalso. apply Hout. apply list_elem_of_In, in_map_iff.
    exists y. split; [reflexivity|apply list_elem_of_In; exact Hy].
  - pose proof (sorted_take_drop ranking k x y Hsorted Hx Hy) as Hle.
    rewrite Forall_forall in Hocc.
    rewrite <- (Hocc x (subseteq_take k ranking x Hx)).
    rewrite <- (Hocc y (subseteq_drop k ranking y Hy)). exact Hle.
Qed.

Lemma print_top_words_prints_the_most_frequent_witness :
  let words := [py "tea"; py "milk"; py "tea"; py "bun"; py "milk"; py "tea"] in
  let printed := print_top_words words 2 in
  NoDup printed
  /\ length printed = Nat.min (Z.to_nat 2) (length (first_seen words))
  /\ (forall w, w ∈ printed -> w ∈ words)
  /\ StronglySorted (fun w w' => occurrences w' words <= occurrences w words) printed
  /\ (forall w w', w ∈ printed -> w' ∈ words -> w' ∉ printed ->
        occurrences w' words <= occurrences w words).
Proof.
  apply (print_top_words_prints_the_most_frequent
           [py "tea"; py "milk"; py "tea"; py "bun"; py "milk"; py "tea"] 2).
  lia.
Defined.



(** ** The date filter *)

Lemma split_no_sep (sep : char) (t : pystr) : sep ∉ t -> split sep t = [t].
Proof.
  induction t as [|c t IH]; intros Hs; [reflexivity|].
  apply not_elem_of_cons in Hs as [Hc Ht]. cbn [split]. rewrite (IH Ht).
  destruct (char_eqb c sep) eqn:E; [|reflexivity].
  apply char_eqb_eq in E. congruence.
Qed.

Section DateFilterProofs.

Variable isdecimal : char -> bool.
Variable py_int : pystr -> option Z.

(** The hyphen is no decimal digit, and [int] reads two decimal digits. *)
Hypothesis dash_not_decimal : isdecimal DASH = false.
Hypothesis int_of_two_digits :
  forall a b, isdecimal a = true -> isdecimal b = true -> is_Some (py_int [a; b]).

(** What a header match looks like. *)
Lemma re_search_date_shape (i date : pystr) :
  re_search_date isdecimal i = Some date ->
  exists y m d : pystr,
    date = y ++ DASH :: m ++ DASH :: d
    /\ length y = 4%nat /\ length m = 2%nat /\ length d = 2%nat
    /\ Forall (fun c => isdecimal c = true) (y ++ m ++ d)
    /\ date = take 10 i.
Proof.
  unfold re_search_date.
  destruct i as [|y1 [|y2 [|y3 [|y4 [|s1 [|m1 [|m2 [|s2 [|d1 [|d2 i]]]]]]]]]];
    try discriminate.
  destruct (isdecimal y1) eqn:E1; [|discriminate].
  destruct (isdecimal y2) eqn:E2; [|discriminate].
  destruct (isdecimal y3) eqn:E3; [|discriminate].
  destruct (isdecimal y4) eqn:E4; [|discriminate].
  destruct (char_eqb s1 DASH) eqn:E5; [|discriminate].
  destruct (isdecimal m1) eqn:E6; [|discriminate].
  destruct (isdecimal m2) eqn:E7; [|discriminate].
  destruct (char_eqb s2 DASH) eqn:E8; [|discriminate].
  destruct (isdecimal d1) eqn:E9; [|discriminate].
  destruct (isdecimal d2) eqn:E10; [|discriminate].
  cbn [andb]. intros [= <-].
  apply char_eqb_eq in E5, E8. subst s1 s2.
  exists [y1; y2; y3; y4], [m1; m2], [d1; d2].
  split; [reflexivity|]. repeat split.
  repeat constructor; assumption.
Qed.

Lemma decimal_not_dash (t : pystr) :
  Forall (fun c => isdecimal c = true) t -> DASH ∉ t.
Proof.
  intros Ht Hin. rewrite Forall_forall in Ht. specialize (Ht DASH Hin). congruence.
Qed.

Lemma day_field_of_parsed_date (i date : pystr) :
  re_search_date isdecimal i = Some date ->
  @lookup nat pystr (list pystr) _ 2%nat (split DASH date) = Some (drop 8 date)
  /\ is_Some (py_int (drop 8 date)).
Proof.
  intros H. destruct (re_search_date_shape i date H)
    as (y & m & d & -> & Hy & Hm & Hd & Hdec & _).
  apply Forall_app in Hdec as [Hdy Hdec]. apply Forall_app in Hdec as [Hdm Hdd].
  rewrite (split_field DASH y _ (decimal_not_dash y Hdy)).
  rewrite (split_field DASH m _ (decimal_not_dash m Hdm)).
  rewrite (split_no_sep DASH d (decimal_not_dash d Hdd)).
  assert (Hdrop : drop 8 (y ++ DASH :: m ++ DASH :: d) = d).
  { destruct y as [|? [|? [|? [|? [|? ?]]]]]; try discriminate.
    destruct m as [|? [|? [|? ?]]]; try discriminate. reflexivity. }
  rewrite Hdrop. split; [reflexivity|].
  destruct d as [|a [|b [|? ?]]]; try discriminate.
  apply Forall_cons in Hdd as [Ha Hdd]. apply Forall_cons in Hdd as [Hb _].
  apply int_of_two_digits; assumption.
Qed.

(** What an acceptance by the installed filter tells about a record. *)
Lemma msg_filter_10days_accepts (i date name qq msg : pystr) :
  re_search_date isdecimal i = Some date ->
  msg_filter_10days py_int date name qq msg = true ->
  starts_with (py "2023-09-") date = true
  /\ (exists day, py_int (drop 8 date) = Some day /\ 14 <= day <= 23)
  /\ qq_msg_filter_common qq msg = true.
Proof.
  intros H Hacc. destruct (day_field_of_parsed_date i date H) as [Hfield [day Hday]].
  unfold msg_filter_10days, qq_msg_filter_10days in Hacc.
  rewrite Hfield, Hday in Hacc. cbn [default from_option id] in Hacc.
  apply andb_true_iff in Hacc as [Hacc Hcommon].
  apply andb_true_iff in Hacc as [Hacc Hhi].
  apply andb_true_iff in Hacc as [Hstart Hlo].
  split; [exact Hstart|]. split; [|exact Hcommon].
  exists day. split; [exact Hday|]. lia.
Qed.

(** X15.  On every date the loop of [get_statistics] can pass to it (the
    text a header line matched), [qq_msg_filter_10days] raises neither
    [IndexError] nor [ValueError]: the third hyphen-separated field is the
    two digits of the day.  It then accepts exactly when the date starts
    with [2023-09-], the day lies between 14 and 23, and
    [qq_msg_filter_common] accepts the id and the line. *)
Theorem qq_msg_filter_10days_never_raises_on_parsed_dates
    (i date name qq msg : pystr) :
  re_search_date isdecimal i = Some date ->
  exists day,
    py_int (drop 8 date) = Some day
    /\ qq_msg_filter_10days py_int date name qq msg
       = Some (starts_with (py "2023-09-") date && (14 <=? day) && (day <=? 23)
               && qq_msg_filter_common qq msg).
Proof.
  intros H. destruct (day_field_of_parsed_date i date H) as [Hfield [day Hday]].
  exists day. split; [exact Hday|].
  unfold qq_msg_filter_10days. rewrite Hfield, Hday. reflexivity.
Qed.

End DateFilterProofs.

Lemma ascii_int_of_two_digits (a b : char) :
  ascii_isdecimal a = true -> ascii_isdecimal b = true -> is_Some (ascii_int [a; b]).
Proof.
  intros Ha Hb. unfold ascii_int. cbn [forallb]. rewrite Ha, Hb. cbn [andb]. eauto.
Defined.

Lemma qq_msg_filter_10days_never_raises_on_parsed_dates_witness :
  exists day,
    ascii_int (drop 8 (py "2023-09-15")) = Some day
    /\ qq_msg_filter_10days ascii_int (py "2023-09-15") (py "Alice") (py "111")
         (py "hello world")
       = Some (starts_with (py "2023-09-") (py "2023-09-15") && (14 <=? day)
               && (day <=? 23) && qq_msg_filter_common (py "111") (py "hello world")).
Proof.
  apply (qq_msg_filter_10days_never_raises_on_parsed_dates ascii_isdecimal ascii_int
           eq_refl ascii_int_of_two_digits
           (py "2023-09-15 10:00:00 Alice(111)") (py "2023-09-15") (py "Alice")
           (py "111") (py "hello world")).
  vm_compute. reflexivity.
Defined.

Lemma records_dates (isdecimal : char -> bool) (lines : list pystr) (r : record) :
  r ∈ records isdecimal lines ->
  exists i, re_search_date isdecimal i = Some (date r).
Proof.
  induction lines as [|h rest IH]; intros Hr.
  - apply elem_of_nil in Hr. contradiction.
  - cbn [records] in Hr. destruct rest as [|b rest'].
    + apply elem_of_nil in Hr. contradiction.
    + destruct (re_search_date isdecimal (strip h)) as [d|] eqn:Eh; [|auto].
      destruct (re_search_date isdecimal (strip b)); [auto|].
      apply elem_of_cons in Hr as [->|Hr]; [|auto].
      exists (strip h). exact Eh.
Qed.

Lemma count_records_positive (p : record -> bool) (rs : list record) :
  1 <= count_records p rs -> exists r, r ∈ rs /\ p r = true.
Proof.
  unfold count_records. intros H.
  destruct (List.filter p rs) as [|r rs'] eqn:E; [cbn in H; lia|].
  assert (Hin : In r (List.filter p rs)) by (rewrite E; left; reflexivity).
  apply List.filter_In in Hin as [Hin Hp].
  exists r. split; [apply list_elem_of_In; exact Hin|exact Hp].
Qed.

(** Every key of [total_counts] is the date of an accepted record. *)
Lemma total_counts_key_has_record (isdecimal : char -> bool)
    (lcut : pystr -> list pystr)
    (msg_filter : option (pystr -> pystr -> pystr -> pystr -> bool))
    (msg_preprocessor : option (pystr -> pystr))
    (word_filter : option (pystr -> bool))
    (speak_filter : option (pystr -> pystr -> bool)) (lines : list pystr) (d : pystr) :
  is_Some (total_counts_of
             (get_statistics isdecimal lcut msg_filter msg_preprocessor word_filter
                speak_filter lines) !! d) ->
  exists r, r ∈ records isdecimal lines /\ accepted msg_filter r = true /\ date r = d.
Proof.
  unfold total_counts_of. intros [v Hv].
  pose proof (get_statistics_counts_positive isdecimal lcut msg_filter
                msg_preprocessor word_filter speak_filter lines) as (_ & Hpos & _).
  pose proof (fold_tally_total lcut msg_preprocessor word_filter speak_filter
                (accepted_records isdecimal msg_filter lines) ([], ∅, ∅, ∅, ∅) d) as Ht.
  assert (Hge : 1 <= v).
  { apply (Hpos d). unfold get_statistics, result_of in Hv. exact Hv. }
  rewrite get_statistics_fold in Hv.
  unfold count_of in Ht at 1 2. rewrite Hv in Ht. cbn [fst snd] in Ht.
  rewrite lookup_empty in Ht. cbn [default from_option id] in Ht.
  assert (Hcount : 1 <= count_records (fun r => bool_decide (date r = d))
                          (accepted_records isdecimal msg_filter lines)) by lia.
  destruct (count_records_positive _ _ Hcount) as (r & Hin & Hd).
  unfold accepted_records in Hin.
  apply list_elem_of_In, List.filter_In in Hin as [Hin Hacc].
  exists r. split; [apply list_elem_of_In; exact Hin|].
  split; [exact Hacc|]. apply bool_decide_eq_true in Hd. exact Hd.
Qed.

(** X16.  With [qq_msg_filter_10days] installed as [msg_filter], as the
    script does, every date of [total_counts] starts with [2023-09-] and
    has a day between 14 and 23. *)
Theorem ten_days_filter_bounds_the_dates (isdecimal : char -> bool)
    (py_int : pystr -> option Z) (lcut : pystr -> list pystr)
    (msg_preprocessor : option (pystr -> pystr))
    (word_filter : option (pystr -> bool))
    (speak_filter : option (pystr -> pystr -> bool)) (lines : list pystr) (d : pystr) :
  isdecimal DASH = false ->
  (forall a b, isdecimal a = true -> isdecimal b = true -> is_Some (py_int [a; b])) ->
  is_Some (total_counts_of
             (get_statistics isdecimal lcut (Some (msg_filter_10days py_int))
                msg_preprocessor word_filter speak_filter lines) !! d) ->
  starts_with (py "2023-09-") d = true
  /\ exists day, py_int (drop 8 d) = Some day /\ 14 <= day <= 23.
Proof.
  intros Hdash Hint Hd.
  destruct (total_counts_key_has_record isdecimal lcut
              (Some (msg_filter_10days py_int)) msg_preprocessor word_filter
              speak_filter lines d Hd) as (r & Hin & Hacc & <-).
  destruct (records_dates isdecimal lines r Hin) as [i Hi].
  unfold accepted in Hacc. cbn [passes4] in Hacc.
  destruct (msg_filter_10days_accepts isdecimal py_int Hdash Hint
              i (date r) (senderName r) (senderId r) (message r) Hi Hacc)
    as (Hstart & Hday & _).
  split; [exact Hstart|exact Hday].
Qed.

Lemma ten_days_filter_bounds_the_dates_witness :
  starts_with (py "2023-09-") (py "2023-09-15") = true
  /\ exists day, ascii_int (drop 8 (py "2023-09-15")) = Some day /\ 14 <= day <= 23.
Proof.
  apply (ten_days_filter_bounds_the_dates ascii_isdecimal ascii_int space_lcut
           (Some qq_msg_preprocessor) None (Some no_annoy_sys_speak_filter)
           alice_transcript (py "2023-09-15") eq_refl ascii_int_of_two_digits).
  exists 1. vm_compute. reflexivity.
Defined.

Lemma fold_tally_speak_absent_records (lcut : pystr -> list pystr)
    (msg_preprocessor : option (pystr -> pystr)) (word_filter : option (pystr -> bool))
    (speak_filter : option (pystr -> pystr -> bool))
    (rs : list record) (acc : statistics) (qq : pystr) :
  (forall r, r ∈ rs -> senderId r <> qq) ->
  acc.1.2 !! qq = None -> acc.2 !! qq = None ->
  (fold_left (tally_record lcut msg_preprocessor word_filter speak_filter) rs acc).1.2
    !! qq = None
  /\ (fold_left (tally_record lcut msg_preprocessor word_filter speak_filter) rs acc).2
       !! qq = None.
Proof.
  revert acc. induction rs as [|r rs IH]; intros acc Hrs Hs Hc.
  - split; assumption.
  - assert (Hne : senderId r <> qq) by (apply Hrs, list_elem_of_here).
    cbn [fold_left].
    apply IH; [intros r' Hr'; apply Hrs, list_elem_of_further, Hr'| |];
      destruct acc as [[[[w t] a] s] c]; cbn [tally_record fst snd] in *;
      destruct (passes2 speak_filter (senderName r) (senderId r)); try assumption.
    + rewrite incr_insert, lookup_insert_ne by exact Hne. exact Hs.
    + rewrite lookup_insert_ne by exact Hne. exact Hc.
Qed.

(** X17.  With [qq_msg_filter_10days] installed as [msg_filter], no record
    of the reserved system id is accepted: whatever [speak_filter] is, that
    id is never a key of the speak-count map or of the card-name map. *)
Theorem system_id_never_counted_with_ten_days_filter (isdecimal : char -> bool)
    (py_int : pystr -> option Z) (lcut : pystr -> list pystr)
    (msg_preprocessor : option (pystr -> pystr))
    (word_filter : option (pystr -> bool))
    (speak_filter : option (pystr -> pystr -> bool)) (lines : list pystr) :
  isdecimal DASH = false ->
  (forall a b, isdecimal a = true -> isdecimal b = true -> is_Some (py_int [a; b])) ->
  let '(_, _, _, speak_counts, card_names) :=
    get_statistics isdecimal lcut (Some (msg_filter_10days py_int)) msg_preprocessor
      word_filter speak_filter lines in
  speak_counts !! SYSTEM_QQ = None /\ card_names !! SYSTEM_QQ = None.
Proof.
  intros Hdash Hint. rewrite get_statistics_fold.
  pose proof (fold_tally_speak_absent_records lcut msg_preprocessor word_filter
                speak_filter
                (accepted_records isdecimal (Some (msg_filter_10days py_int)) lines)
                ([], ∅, ∅, ∅, ∅) SYSTEM_QQ) as H.
  destruct (fold_left _ _ _) as [[[[w t] a] s] c]. cbn [fst snd] in H.
  apply H; try apply lookup_empty.
  intros r Hr Hsys. unfold accepted_records in Hr.
  apply list_elem_of_In, List.filter_In in Hr as [Hin Hacc].
  apply list_elem_of_In in Hin.
  destruct (records_dates isdecimal lines r Hin) as [i Hi].
  unfold accepted in Hacc. cbn [passes4] in Hacc.
  destruct (msg_filter_10days_accepts isdecimal py_int Hdash Hint
              i (date r) (senderName r) (senderId r) (message r) Hi Hacc)
    as (_ & _ & Hcommon).
  unfold qq_msg_filter_common in Hcommon.
  rewrite (bool_decide_eq_true_2 _ Hsys) in Hcommon. discriminate.
Qed.

Lemma system_id_never_counted_with_ten_days_filter_witness :
  let '(_, _, _, speak_counts, card_names) :=
    get_statistics ascii_isdecimal space_lcut (Some (msg_filter_10days ascii_int))
      None None None
      [py "2023-09-15 10:00:00 System(1000000)"; py "notice";
       py "2023-09-15 10:00:01 Alice(111)"; py "hello world"] in
  speak_counts !! SYSTEM_QQ = None /\ card_names !! SYSTEM_QQ = None.
Proof.
  apply (system_id_never_counted_with_ten_days_filter ascii_isdecimal ascii_int
           space_lcut None None None
           [py "2023-09-15 10:00:00 System(1000000)"; py "notice";
            py "2023-09-15 10:00:01 Alice(111)"; py "hello world"]
           eq_refl ascii_int_of_two_digits).
Defined.
